(** * The Binance wallet adapter of the bridge ([src/utils/walletApi/binance.js])

    A shallow embedding of the adapter: error normalisation
    ([convertWalletError]), the hash-first submission promise
    ([confirmLater]), the read-only queries, [lock], and the two provider
    event handlers registered by [init].

    JavaScript values are modelled by the types the adapter uses them at:
    hashes, addresses and amounts are strings, chain identifiers are
    integers, [null]/[undefined] is [None]. *)

From Stdlib Require Import ZArith Ascii String.
From stdpp Require Import base list strings.

Open Scope string_scope.
Open Scope list_scope.

(** ** Errors *)

(** [WalletError.CODES] of [@/utils/errors], as far as the adapter uses it. *)
Inductive ErrorCode : Type :=
| UNKNOWN_ERROR
| USER_REJECTED
| INSUFFICIENT_FUNDS.

(** A thrown JavaScript [Error]: every error object has a [message]
    string (a thrown value without one is outside the model).
    [WalletErr] is an instance of the [WalletError] class
    (message, [code], [cause]); [RawErr] is any other error object, of
    which the adapter only reads [message]. *)
#[warnings="-register-all"] Inductive JsError : Type :=
| RawErr (message : string)
| WalletErr (message : string) (code : ErrorCode) (cause : option JsError).

Definition errorMessage (e : JsError) : string :=
  match e with
  | RawErr m => m
  | WalletErr m _ _ => m
  end.

(** [error instanceof WalletError] *)
Definition instanceofWalletError (e : JsError) : bool :=
  match e with
  | RawErr _ => false
  | WalletErr _ _ _ => true
  end.

(** ** [String.prototype.includes] *)

Fixpoint startsWith (s p : string) {struct p} : bool :=
  match p, s with
  | EmptyString, _ => true
  | String _ _, EmptyString => false
  | String b p', String a s' => if Ascii.eqb a b then startsWith s' p' else false
  end.

Fixpoint includes (s sub : string) : bool :=
  startsWith s sub ||
  match s with
  | EmptyString => false
  | String _ s' => includes s' sub
  end.

(** [sub] occurs in [s]. *)
Definition contains (s sub : string) : Prop :=
  ∃ l r : string, s = l +:+ sub +:+ r.

(** ** [convertWalletError] (binance.js, lines 30-41) *)

Definition classifyMessage (m : string) : ErrorCode :=
  if includes m "Rejected by user" then USER_REJECTED
  else if includes m "insufficient funds" then INSUFFICIENT_FUNDS
  else UNKNOWN_ERROR.

Definition convertWalletError (error : JsError) : JsError :=
  if instanceofWalletError error then error
  else WalletErr (errorMessage error) (classifyMessage (errorMessage error)) (Some error).

(** ** Completions of (possibly asynchronous) code

    [Return] and [Throw] are normal and abrupt completion (for an [async]
    function: the returned promise fulfils or rejects); [Hang] is an
    [await] on a promise that never settles. *)
Inductive Completion (A : Type) : Type :=
| Return (a : A)
| Throw (e : JsError)
| Hang.
Arguments Return {A} a.
Arguments Throw {A} e.
Arguments Hang {A}.

(** ** Data read from the registries and the chain *)

(** [SingleTransactionStatus] of [@/utils/enums]. *)
Inductive SingleTransactionStatus : Type :=
| Pending
| Done
| Failed.

(** The part of a transaction receipt the adapter reads. *)
Record TransactionReceipt : Type := { status : bool }.

(** An entry of the token registry. *)
Record TokenBasic : Type := { decimals : nat }.

(** An entry of the chain registry; [nftFeeName] may be missing. *)
Record Chain : Type := {
  lockContractHash : string;
  nftLockContractHash : string;
  nftFeeName : option string
}.

(** Truthiness of an optional string: [undefined] and [''] are falsy. *)
Definition truthy (v : option string) : bool :=
  match v with
  | None => false
  | Some s => negb (String.eqb s "")
  end.

(** The token hash that stands for the chain's native coin. *)
Definition nativeTokenHash : string := "0000000000000000000000000000000000000000".

Definition NFT_FEE_TOKEN_HASH : string := "0x0000000000000000000000000000000000000000".

(** ** Signals of a submission (web3's PromiEvent) *)

Inductive EventName : Type :=
| transactionHash
| error
| confirmation.

Inductive Signal : Type :=
| SigTransactionHash (hash : string)
| SigError (e : JsError)
| SigConfirmation (confNumber : nat) (receipt : TransactionReceipt).

Definition eventOf (s : Signal) : EventName :=
  match s with
  | SigTransactionHash _ => transactionHash
  | SigError _ => error
  | SigConfirmation _ _ => confirmation
  end.

#[global] Instance EventName_eq_dec : EqDecision EventName.
Proof. solve_decision. Defined.

(** ** What the adapter asks of the outside world, in order *)

(** The ABI files the adapter [require]s. *)
Inductive Abi : Type :=
| eth_erc20
| eth_erc721
| eth_lock
| eth_nft_lock.

(** [contract.methods.<name>(<arguments>)] *)
Inductive Method : Type :=
| methods_balanceOf (owner : string)
| methods_allowance (owner spender : string)
| methods_totalSupply
| methods_getApproved (tokenID : string)
| methods_lock (fromAssetHash : string) (toChainId : Z) (toAddress : string)
               (amount fee : string) (id : Z).

(** The options object handed to [send]. *)
Record SendOptions : Type := { send_from : string; send_value : string }.

Inductive WalletName : Type :=
| Binance.

(** The payload of [store.dispatch('updateWallet', ...)].  A key that the
    object literal does not have is [None]; a key that is present holds
    its value, which may itself be [null]/[undefined] (inner [None]). *)
Record WalletUpdate : Type := {
  upd_name : WalletName;
  upd_installed : option bool;
  upd_address : option (option string);
  upd_addressHex : option (option string);
  upd_connected : option bool;
  upd_chainId : option (option Z)
}.

Inductive Call : Type :=
| CallGetBalance (address : string)
| CallGetTransactionReceipt (hash : string)
| CallMethod (abi : Abi) (contract : string) (m : Method)
| SendMethod (abi : Abi) (contract : string) (m : Method) (opts : SendOptions)
| ConsoleLog (s : string)
| StoreDispatch (payload : WalletUpdate).

(** A call or a send on a contract built from an ABI. *)
Definition isContractCall (c : Call) : bool :=
  match c with
  | CallMethod _ _ _ | SendMethod _ _ _ _ => true
  | _ => false
  end.

(** The client bound to the provider ([new Web3(window.BinanceChain)]):
    what each request answers.  A send answers with the signals its
    PromiEvent emits, in order. *)
Record Web3 : Type := {
  eth_getBalance : string -> Completion string;
  eth_getTransactionReceipt : string -> Completion (option TransactionReceipt);
  methods_call : Abi -> string -> Method -> Completion string;
  methods_send : Abi -> string -> Method -> SendOptions -> list Signal;
  utils_toChecksumAddress : string -> Completion string
}.

(** The getters of [@/store] the adapter reads; a missing entry is
    [undefined]. *)
Record Store : Type := {
  getChain : Z -> Completion (option Chain);
  getTokenBasicByChainIdAndTokenHash : Z -> string -> Completion (option TokenBasic)
}.

(** The module's surroundings: the module-level [web3] ([undefined] until
    [init] has found a provider) and the store. *)
Record Env : Type := {
  web3 : option Web3;
  store : Store
}.

(** The functions the module imports ([@/utils/convertors],
    [@/utils/chainApi], [@/utils/env], [@/utils/enums], the wallet index)
    and the two things it needs from the JavaScript engine. *)
Class Imports : Type := {
  decimalToInteger : string -> nat -> Completion string;
  integerToDecimal : string -> nat -> Completion string;
  toStandardHex : string -> Completion string;
  (** [(await getChainApi(chainId)).addressToHex(address)] *)
  chainApi_addressToHex : Z -> string -> Completion string;
  (** [tryToConvertAddressToHex(WalletName.Binance, address)] *)
  tryToConvertAddressToHex : option string -> option string;
  TARGET_MAINNET : bool;
  ChainId_Bsc : Z;
  (** [Number(network)]; [None] is [NaN] *)
  Number : string -> option Z;
  (** message of the [TypeError] raised by reading the named property of
      [undefined] *)
  typeErrorMessage : string -> string
}.

(** ** Traced computations *)

Definition M (A : Type) : Type := list Call * Completion A.

Definition ret {A} (a : A) : M A := ([], Return a).

Definition bind {A B} (m : M A) (f : A -> M B) : M B :=
  match m with
  | (t, Return a) => let '(t', r) := f a in (t ++ t', r)
  | (t, Throw e) => (t, Throw e)
  | (t, Hang) => (t, Hang)
  end.

#[global] Instance M_ret : MRet M := @ret.
#[global] Instance M_bind : MBind M := fun A B f m => bind m f.

(** A step without outside effect. *)
Definition lift {A} (r : Completion A) : M A := ([], r).

(** A request [c] that the outside world answers with [r]. *)
Definition request {A} (c : Call) (r : Completion A) : M A := ([c], r).

Definition trace {A} (m : M A) : list Call := fst m.
Definition completion {A} (m : M A) : Completion A := snd m.

(** [try { body } catch (error) { throw convertWalletError(error); }] *)
Definition tryConvert {A} (body : M A) : M A :=
  match body with
  | (t, Throw e) => (t, Throw (convertWalletError e))
  | _ => body
  end.

(** ** Promises and the listeners of a submission

    A promise is settled at most once by construction of the language:
    calling [resolve] or [reject] of a promise that is no longer pending
    does nothing.  Listeners are compared by identity, so each closure
    carries the promise it belongs to. *)

Inductive PromiseState : Type :=
| pending
| fulfilled (value : string)
| rejected (reason : JsError).

Inductive Listener : Type :=
| resolve (p : nat)
| reject (p : nat)
| onConfirm (p : nat).

#[global] Instance Listener_eq_dec : EqDecision Listener.
Proof. solve_decision. Defined.

(** The listeners registered on the submission, in registration order,
    and the promises created so far. *)
Record Runtime : Type := {
  listeners : list (EventName * Listener);
  promises : list PromiseState
}.

Definition settle (p : nat) (s : PromiseState) (rt : Runtime) : Runtime :=
  match promises rt !! p with
  | Some pending => {| listeners := listeners rt; promises := <[p := s]> (promises rt) |}
  | _ => rt
  end.

(** [promise.on(ev, l)] *)
Definition on (ev : EventName) (l : Listener) (rt : Runtime) : Runtime :=
  {| listeners := listeners rt ++ [(ev, l)]; promises := promises rt |}.

(** [promise.off(ev, l)] *)
Definition off (ev : EventName) (l : Listener) (rt : Runtime) : Runtime :=
  {| listeners := filter (fun x => x ≠ (ev, l)) (listeners rt); promises := promises rt |}.

(** Calling listener [l] with the arguments of signal [s].  A listener is
    only ever called with a signal of the event it was registered for. *)
Definition invoke (l : Listener) (s : Signal) (rt : Runtime) : Runtime :=
  match l, s with
  | resolve p, SigTransactionHash h => settle p (fulfilled h) rt
  | reject p, SigError e => settle p (rejected e) rt
  | onConfirm p, SigConfirmation _ _ => off confirmation (onConfirm p) rt
  | _, _ => rt
  end.

(** The submission emits [s]: the listeners registered for its event at
    that moment are called in registration order. *)
Definition emit (s : Signal) (rt : Runtime) : Runtime :=
  foldl (fun rt l => invoke l s rt) rt
        (snd <$> filter (fun x => x.1 = eventOf s) (listeners rt)).

(** The submission emits [sigs] in order.  Only what the listeners of
    [confirmLater] do is modelled: what the library does to the listener
    list of its own accord once it has delivered an error is not, so the
    listener list is spoken of for submissions that emit no error; the
    promise does not depend on it ([promise_same_when_clearing]). *)
Definition deliver (sigs : list Signal) (rt : Runtime) : Runtime :=
  foldl (fun rt s => emit s rt) rt sigs.

(** ** [confirmLater] (lines 18-28): the executor of the new promise runs
    at once and registers the three listeners. *)
Definition confirmLater (rt : Runtime) : nat * Runtime :=
  let p := length (promises rt) in
  let rt := {| listeners := listeners rt; promises := promises rt ++ [pending] |} in
  let rt := on transactionHash (resolve p) rt in
  let rt := on error (reject p) rt in
  let rt := on confirmation (onConfirm p) rt in
  (p, rt).

(** A submission nobody listens to yet, next to the promises [hp] that
    already exist. *)
Definition freshSubmission (hp : list PromiseState) : Runtime :=
  {| listeners := []; promises := hp |}.

(** [await] of promise [p] once the submission has emitted all it will. *)
Definition await (p : nat) (rt : Runtime) : Completion string :=
  match promises rt !! p with
  | Some (fulfilled v) => Return v
  | Some (rejected e) => Throw e
  | _ => Hang
  end.

(** [await confirmLater(submission)] for a submission that emits [sigs]. *)
Definition awaitConfirmLater (sigs : list Signal) : Completion string :=
  let '(p, rt) := confirmLater (freshSubmission []) in
  await p (deliver sigs rt).

(** ** Reading the promise and the listeners of one submission *)

Definition isConfirmation (s : Signal) : bool :=
  match s with
  | SigConfirmation _ _ => true
  | _ => false
  end.

(** What one signal does to a promise that listens through [resolve] on
    [transactionHash] and [reject] on [error]. *)
Definition step (st : PromiseState) (s : Signal) : PromiseState :=
  match st, s with
  | pending, SigTransactionHash h => fulfilled h
  | pending, SigError e => rejected e
  | _, _ => st
  end.

(** The listeners of a [confirmLater] call for promise [p]; [confirmed]
    tells whether a confirmation has been delivered. *)
Definition registered (p : nat) (confirmed : bool) : list (EventName * Listener) :=
  [(transactionHash, resolve p); (error, reject p)] ++
  (if confirmed then [] else [(confirmation, onConfirm p)]).

(** The promise of a [confirmLater] call after the submission emitted [sigs]. *)
Definition promiseAfter (hp : list PromiseState) (sigs : list Signal) : option PromiseState :=
  let '(p, rt) := confirmLater (freshSubmission hp) in
  promises (deliver sigs rt) !! p.

(** The listeners on the submission after it emitted [sigs]. *)
Definition listenersAfter (hp : list PromiseState) (sigs : list Signal)
  : list (EventName * Listener) :=
  let '(_, rt) := confirmLater (freshSubmission hp) in
  listeners (deliver sigs rt).

(** The listener rule as the specification words it: once a transaction
    hash or an error has been emitted, the [transactionHash] and [error]
    listeners are both off the submission, and once a transaction hash
    has been emitted the confirmation listener is off it too. *)
Definition listenersRetired (hp : list PromiseState) (sigs : list Signal) : Prop :=
  let '(p, rt) := confirmLater (freshSubmission hp) in
  let ls := listeners (deliver sigs rt) in
  ((∃ s, s ∈ sigs ∧ isConfirmation s = false) →
     ((transactionHash, resolve p) ∉ ls) ∧ ((error, reject p) ∉ ls)) ∧
  ((∃ h, SigTransactionHash h ∈ sigs) → ((confirmation, onConfirm p) ∉ ls)).

Section Adapter.
Context `{Imports}.

(** The [TypeError] of reading property [p] of [undefined]. *)
Definition TypeError (p : string) : JsError := RawErr (typeErrorMessage p).

(** Reading property [p] of a value that may be [undefined]. *)
Definition deref {A} (v : option A) (p : string) : M A :=
  match v with
  | Some a => ret a
  | None => lift (Throw (TypeError p))
  end.

(** ** [getBalance] (lines 103-117) *)
Definition getBalance (env : Env) (chainId : Z) (address tokenHash : string) : M string :=
  tryConvert (
    tokenBasic ← lift (getTokenBasicByChainIdAndTokenHash (store env) chainId tokenHash);
    if String.eqb tokenHash nativeTokenHash then
      w ← deref (web3 env) "eth";
      result ← request (CallGetBalance address) (eth_getBalance w address);
      tb ← deref tokenBasic "decimals";
      lift (integerToDecimal result (decimals tb))
    else
      w ← deref (web3 env) "eth";
      result ← request (CallMethod eth_erc20 tokenHash (methods_balanceOf address))
                       (methods_call w eth_erc20 tokenHash (methods_balanceOf address));
      tb ← deref tokenBasic "decimals";
      lift (integerToDecimal result (decimals tb))).

(** ** [getAllowance] (lines 119-131); [None] is the returned [null] *)
Definition getAllowance (env : Env) (chainId : Z) (address tokenHash spender : string)
  : M (option string) :=
  tryConvert (
    tokenBasic ← lift (getTokenBasicByChainIdAndTokenHash (store env) chainId tokenHash);
    if String.eqb tokenHash nativeTokenHash then
      ret None
    else
      w ← deref (web3 env) "eth";
      result ← request (CallMethod eth_erc20 tokenHash (methods_allowance address ("0x" +:+ spender)))
                       (methods_call w eth_erc20 tokenHash (methods_allowance address ("0x" +:+ spender)));
      tb ← deref tokenBasic "decimals";
      r ← lift (integerToDecimal result (decimals tb));
      ret (Some r)).

(** ** [getTotalSupply] (lines 133-145) *)
Definition getTotalSupply (env : Env) (chainId : Z) (tokenHash : string) : M (option string) :=
  tryConvert (
    tokenBasic ← lift (getTokenBasicByChainIdAndTokenHash (store env) chainId tokenHash);
    if String.eqb tokenHash nativeTokenHash then
      ret None
    else
      w ← deref (web3 env) "eth";
      result ← request (CallMethod eth_erc20 tokenHash methods_totalSupply)
                       (methods_call w eth_erc20 tokenHash methods_totalSupply);
      tb ← deref tokenBasic "decimals";
      r ← lift (integerToDecimal result (decimals tb));
      ret (Some r)).

(** ** [getTransactionStatus] (lines 147-159) *)
Definition getTransactionStatus (env : Env) (transactionHash : string)
  : M SingleTransactionStatus :=
  tryConvert (
    w ← deref (web3 env) "eth";
    transactionReceipt ← request (CallGetTransactionReceipt ("0x" +:+ transactionHash))
                                 (eth_getTransactionReceipt w ("0x" +:+ transactionHash));
    match transactionReceipt with
    | Some r => ret (if status r then Done else Failed)
    | None => ret Pending
    end).

(** ** [getNFTApproved] (lines 189-203); [===] on two strings is
    [String.eqb] *)
Definition getNFTApproved (env : Env) (fromChainId : Z) (tokenHash id : string) : M bool :=
  tryConvert (
    chain ← lift (getChain (store env) fromChainId);
    tokenID ← lift (decimalToInteger id 0);
    w ← deref (web3 env) "eth";
    result ← request (CallMethod eth_erc721 tokenHash (methods_getApproved tokenID))
                     (methods_call w eth_erc721 tokenHash (methods_getApproved tokenID));
    _ ← request (ConsoleLog result) (Return tt);
    c ← deref chain "nftLockContractHash";
    ret (negb (String.eqb result (nftLockContractHash c)))).

(** ** [lock] (lines 205-242) *)
Definition lock (env : Env) (fromChainId : Z) (fromAddress fromTokenHash : string)
    (toChainId : Z) (toAddress amount fee : string) : M string :=
  tryConvert (
    chain ← lift (getChain (store env) fromChainId);
    tokenBasic ← lift (getTokenBasicByChainIdAndTokenHash (store env) fromChainId fromTokenHash);
    w ← deref (web3 env) "eth";
    c ← deref chain "lockContractHash";
    toAddressHex ← lift (chainApi_addressToHex toChainId toAddress);
    tb ← deref tokenBasic "decimals";
    amountInt ← lift (decimalToInteger amount (decimals tb));
    feeInt ← lift (decimalToInteger fee (if truthy (nftFeeName c) then 18 else decimals tb));
    let m := methods_lock ("0x" +:+ fromTokenHash) toChainId ("0x" +:+ toAddressHex)
                          amountInt feeInt 0 in
    let opts := {| send_from := fromAddress;
                   send_value := if String.eqb fromTokenHash nativeTokenHash
                                 then amountInt else feeInt |} in
    result ← request (SendMethod eth_lock (lockContractHash c) m opts)
                     (awaitConfirmLater (methods_send w eth_lock (lockContractHash c) m opts));
    lift (toStandardHex result)).

(** ** The provider event handlers registered by [init] (lines 70-87) *)

Definition NETWORK_CHAIN_ID_MAPS (key : option Z) : option Z :=
  match key with
  | Some n => if (n =? (if TARGET_MAINNET then 56 else 97))%Z then Some ChainId_Bsc else None
  | None => None
  end.

(** [accounts[0] || null] *)
Definition firstAccount (accounts : list string) : option string :=
  match accounts with
  | a :: _ => if String.eqb a "" then None else Some a
  | [] => None
  end.

Definition onAccountsChanged (env : Env) (accounts : list string) : M unit :=
  let address := firstAccount accounts in
  let addressHex := tryToConvertAddressToHex address in
  checksumAddress ← match address with
                    | None => ret None
                    | Some a =>
                        w ← deref (web3 env) "utils";
                        s ← lift (utils_toChecksumAddress w a);
                        ret (Some s)
                    end;
  request (StoreDispatch {| upd_name := Binance;
                            upd_installed := None;
                            upd_address := Some checksumAddress;
                            upd_addressHex := Some addressHex;
                            upd_connected := Some (truthy checksumAddress);
                            upd_chainId := None |})
          (Return tt).

Definition onChainChanged (network : string) : M unit :=
  request (StoreDispatch {| upd_name := Binance;
                            upd_installed := None;
                            upd_address := None;
                            upd_addressHex := None;
                            upd_connected := None;
                            upd_chainId := Some (NETWORK_CHAIN_ID_MAPS (Number network)) |})
          (Return tt).

End Adapter.

(** ** The wallet state kept by the store *)

Record ConnectionState : Type := {
  installed : bool;
  connected : bool;
  address : option string;
  addressHex : option string;
  chainId : option Z
}.

(** Modelled from the spec: the store's [updateWallet] action is not part
    of this module.  The spec calls its argument a partial state: the
    keys the payload has replace the stored ones, the others stay. *)
Definition updateWallet (st : ConnectionState) (u : WalletUpdate) : ConnectionState :=
  {| installed := default (installed st) (upd_installed u);
     connected := default (connected st) (upd_connected u);
     address := default (address st) (upd_address u);
     addressHex := default (addressHex st) (upd_addressHex u);
     chainId := default (chainId st) (upd_chainId u) |}.

(** The payloads dispatched to the store, in order. *)
Definition dispatched {A} (m : M A) : list WalletUpdate :=
  omap (fun c => match c with StoreDispatch u => Some u | _ => None end) (trace m).

(** The store's wallet state after the dispatches of [m]. *)
Definition publish {A} (st : ConnectionState) (m : M A) : ConnectionState :=
  foldl updateWallet st (dispatched m).

(** ** Sample surroundings: concrete imports, registry and provider *)

Module Sample.

Definition isDigit (c : Ascii.ascii) : bool :=
  (48 <=? Ascii.nat_of_ascii c)%nat && (Ascii.nat_of_ascii c <=? 57)%nat.

Fixpoint allDigits (s : string) : bool :=
  match s with
  | EmptyString => true
  | String c r => isDigit c && allDigits r
  end.

(** The text before the first dot, and the text after it if there is one. *)
Fixpoint splitDot (s : string) : string * option string :=
  match s with
  | EmptyString => (EmptyString, None)
  | String c r =>
      if Ascii.eqb c "."%char then (EmptyString, Some r)
      else let '(i, f) := splitDot r in (String c i, f)
  end.

Fixpoint stripLeadingZeros (s : string) : string :=
  match s with
  | String c (String _ _ as r) => if Ascii.eqb c "0"%char then stripLeadingZeros r else s
  | _ => s
  end.

Definition stripTrailingZeros (s : string) : string :=
  let fix go (l : list Ascii.ascii) : list Ascii.ascii :=
    match l with
    | c :: r => if Ascii.eqb c "0"%char then go r else l
    | [] => []
    end in
  string_of_list_ascii (rev (go (rev (list_ascii_of_string s)))).

(** The first [d] digits of the fraction [f], filled up with zeros. *)
Fixpoint fractionDigits (f : string) (d : nat) : string :=
  match d with
  | O => EmptyString
  | S d' =>
      match f with
      | EmptyString => String "0"%char (fractionDigits EmptyString d')
      | String c r => String c (fractionDigits r d')
      end
  end.

Fixpoint zeros (n : nat) : string :=
  match n with
  | O => EmptyString
  | S n' => String "0"%char (zeros n')
  end.

Definition FormatError : JsError := RawErr "FormatError".

(** Modelled from the spec: [decimalToInteger] of [@/utils/convertors] is
    not part of this module.  The spec has it shift the decimal point
    right by [decimals] digits and cut off (not round) what remains, and
    fail with a format error on malformed input. *)
Definition refDecimalToInteger (value : string) (decimals : nat) : Completion string :=
  let '(i, f) := splitDot value in
  let f := default EmptyString f in
  if negb (String.eqb i "") && allDigits i && allDigits f
  then Return (stripLeadingZeros (i +:+ fractionDigits f decimals))
  else Throw FormatError.

(** Modelled from the spec: [integerToDecimal] of [@/utils/convertors] is
    not part of this module.  The spec has it shift the decimal point
    left by [decimals] digits without loss, in normal form. *)
Definition refIntegerToDecimal (value : string) (decimals : nat) : Completion string :=
  if negb (String.eqb value "") && allDigits value then
    let padded := zeros (S decimals - String.length value) +:+ value in
    let n := (String.length padded - decimals)%nat in
    let i := stripLeadingZeros (substring 0 n padded) in
    let f := stripTrailingZeros (substring n decimals padded) in
    Return (if String.eqb f "" then i else i +:+ "." +:+ f)
  else Throw FormatError.

(** Drops a leading [0x]. *)
Definition strip0x (s : string) : string :=
  match s with
  | String "0"%char (String "x"%char r) => r
  | _ => s
  end.

Definition imports : Imports := {|
  decimalToInteger := refDecimalToInteger;
  integerToDecimal := refIntegerToDecimal;
  toStandardHex := fun s => Return (strip0x s);
  chainApi_addressToHex := fun _ a => Return (strip0x a);
  tryToConvertAddressToHex := fmap strip0x;
  TARGET_MAINNET := true;
  ChainId_Bsc := 6;
  Number := fun s => if String.eqb s "0x38" then Some 56%Z
                     else if String.eqb s "0x61" then Some 97%Z else None;
  typeErrorMessage := fun p => "Cannot read properties of undefined (reading '" +:+ p +:+ "')"
|}.

Definition bnb : TokenBasic := {| decimals := 18 |}.
Definition usdt : TokenBasic := {| decimals := 6 |}.

Definition bsc : Chain := {|
  lockContractHash := "0x2f7ac9436ba4B548f9582af91CA1Ef02cd2F1f03";
  nftLockContractHash := "0xe2bD9dD8FAF5C4C2087Ab82eC7E63F619CcAa152";
  nftFeeName := None
|}.

Definition bscTestnet : Chain := {|
  lockContractHash := "0x097Ae585BfEf78DDC8E266ABCb840dAF7265130c";
  nftLockContractHash := "0xbaBaAF5CF7f63437755aAAFE7a4106463c5cD540";
  nftFeeName := Some "BNB"
|}.

Definition theStore : Store := {|
  getChain := fun id => Return (if (id =? 6)%Z then Some bsc
                                else if (id =? 79)%Z then Some bscTestnet else None);
  getTokenBasicByChainIdAndTokenHash := fun id h =>
    Return (if String.eqb h nativeTokenHash then Some bnb
            else if String.eqb h "55d398326f99059ff775485246999027b3197955" then Some usdt
            else None)
|}.

Definition client : Web3 := {|
  eth_getBalance := fun _ => Return "2500000000000000000";
  eth_getTransactionReceipt := fun h =>
    Return (if String.eqb h "0x01" then Some {| status := true |}
            else if String.eqb h "0x02" then Some {| status := false |}
            else None);
  methods_call := fun _ _ m =>
    match m with
    | methods_getApproved _ => Return "0xE2BD9DD8FAF5C4C2087AB82EC7E63F619CCAA152"
    | _ => Return "1250000"
    end;
  methods_send := fun _ _ _ _ =>
    [SigTransactionHash "0xabc"; SigConfirmation 0 {| status := true |}];
  utils_toChecksumAddress := fun a => Return a
|}.

Definition env : Env := {| web3 := Some client; store := theStore |}.

End Sample.

(** ** The transaction of [lock] *)

(** The method call that [lock] builds (line 232). *)
Definition lockMethod (fromTokenHash : string) (toChainId : Z)
    (toAddressHex amountInt feeInt : string) : Method :=
  methods_lock ("0x" +:+ fromTokenHash) toChainId ("0x" +:+ toAddressHex) amountInt feeInt 0.

(** The options it is sent with (lines 233-236). *)
Definition lockOptions (fromAddress fromTokenHash amountInt feeInt : string) : SendOptions :=
  {| send_from := fromAddress;
     send_value := if String.eqb fromTokenHash nativeTokenHash then amountInt else feeInt |}.

(** The signals with which the provider answers that transaction. *)
Definition lockSignals (w : Web3) (ch : Chain) (fromAddress fromTokenHash : string)
    (toChainId : Z) (toAddressHex amountInt feeInt : string) : list Signal :=
  methods_send w eth_lock (lockContractHash ch)
    (lockMethod fromTokenHash toChainId toAddressHex amountInt feeInt)
    (lockOptions fromAddress fromTokenHash amountInt feeInt).

(** A request that only reads: no transaction is sent and nothing is
    dispatched to the store. *)
Definition isRead (c : Call) : bool :=
  match c with
  | CallGetBalance _ | CallGetTransactionReceipt _ | CallMethod _ _ _ | ConsoleLog _ => true
  | SendMethod _ _ _ _ | StoreDispatch _ => false
  end.

(** ** Connection life cycle: [queryState], [init], [connect] (lines 43-101) *)

(** The injected provider [window.BinanceChain]: what its requests
    answer, and the client that [new Web3(provider)] builds on it. *)
Record Provider : Type := {
  request_eth_accounts : Completion (list string);
  request_eth_chainId : Completion string;
  request_eth_requestAccounts : Completion (list string);
  provider_client : Web3
}.

Inductive ProviderMethod : Type :=
| eth_accounts
| eth_chainId
| eth_requestAccounts.

Inductive ProviderEvent : Type :=
| accountsChanged
| chainChanged.

(** What the life cycle functions read and change: the module-level
    [web3], the session flag [BINANCE_CONNECTED], and, as logs with the
    oldest entry first, the payloads dispatched to the store, the
    requests made to the provider and the listeners registered on it;
    and how often the wallet's [deferred] has been resolved. *)
Record Page : Type := {
  page_web3 : option Web3;
  page_session : option string;
  page_dispatched : list WalletUpdate;
  page_requests : list ProviderMethod;
  page_listeners : list ProviderEvent;
  page_deferred : nat
}.

Definition L (A : Type) : Type := Page → Page * Completion A.

#[global] Instance L_ret : MRet L := fun A a pg => (pg, Return a).

#[global] Instance L_bind : MBind L := fun A B f m pg =>
  match m pg with
  | (pg', Return a) => f a pg'
  | (pg', Throw e) => (pg', Throw e)
  | (pg', Hang) => (pg', Hang)
  end.

(** A step that leaves the page as it is. *)
Definition liftL {A} (r : Completion A) : L A := fun pg => (pg, r).

(** [web3 = client] *)
Definition setWeb3 (client : Web3) : L unit := fun pg =>
  ({| page_web3 := Some client; page_session := page_session pg;
      page_dispatched := page_dispatched pg; page_requests := page_requests pg;
      page_listeners := page_listeners pg; page_deferred := page_deferred pg |}, Return tt).

(** [sessionStorage.setItem(BINANCE_CONNECTED_KEY, v)] *)
Definition setSession (v : string) : L unit := fun pg =>
  ({| page_web3 := page_web3 pg; page_session := Some v;
      page_dispatched := page_dispatched pg; page_requests := page_requests pg;
      page_listeners := page_listeners pg; page_deferred := page_deferred pg |}, Return tt).

(** [sessionStorage.getItem(BINANCE_CONNECTED_KEY)] *)
Definition getSession : L (option string) := fun pg => (pg, Return (page_session pg)).

(** [store.dispatch('updateWallet', u)] *)
Definition dispatchL (u : WalletUpdate) : L unit := fun pg =>
  ({| page_web3 := page_web3 pg; page_session := page_session pg;
      page_dispatched := page_dispatched pg ++ [u]; page_requests := page_requests pg;
      page_listeners := page_listeners pg; page_deferred := page_deferred pg |}, Return tt).

(** [window.BinanceChain.on(ev, handler)] *)
Definition onProvider (ev : ProviderEvent) : L unit := fun pg =>
  ({| page_web3 := page_web3 pg; page_session := page_session pg;
      page_dispatched := page_dispatched pg; page_requests := page_requests pg;
      page_listeners := page_listeners pg ++ [ev]; page_deferred := page_deferred pg |},
   Return tt).

(** [try { body } finally { deferred.resolve(); }]: the [finally] block
    runs when the body has completed, normally or not. *)
Definition finallyResolve {A} (body : L A) : L A := fun pg =>
  match body pg with
  | (pg', Hang) => (pg', Hang)
  | (pg', r) =>
      ({| page_web3 := page_web3 pg'; page_session := page_session pg';
          page_dispatched := page_dispatched pg'; page_requests := page_requests pg';
          page_listeners := page_listeners pg'; page_deferred := S (page_deferred pg') |}, r)
  end.

(** [try { body } catch (error) { throw convertWalletError(error); }] *)
Definition tryConvertL {A} (body : L A) : L A := fun pg =>
  match body pg with
  | (pg', Throw e) => (pg', Throw (convertWalletError e))
  | r => r
  end.

(** A request [m] to the provider, answered with [r]. *)
Definition logRequest {A} (m : ProviderMethod) (r : Completion A) : L A := fun pg =>
  ({| page_web3 := page_web3 pg; page_session := page_session pg;
      page_dispatched := page_dispatched pg; page_requests := page_requests pg ++ [m];
      page_listeners := page_listeners pg; page_deferred := page_deferred pg |}, r).

Section Lifecycle.
Context `{Imports}.

(** Reading property [p] of a value that may be [undefined]. *)
Definition derefL {A} (v : option A) (p : string) : L A :=
  match v with
  | Some a => mret a
  | None => liftL (Throw (TypeError p))
  end.

(** [await window.BinanceChain.request({ method })] *)
Definition providerRequest {A} (bc : option Provider) (m : ProviderMethod)
    (answer : Provider → Completion A) : L A :=
  p ← derefL bc "request";
  logRequest m (answer p).

(** The module-level [web3], as the page has it now. *)
Definition readWeb3 : L (option Web3) := fun pg => (pg, Return (page_web3 pg)).

(** [queryState] (lines 43-56) *)
Definition queryState (bc : option Provider) : L unit :=
  accounts ← providerRequest bc eth_accounts request_eth_accounts;
  let address := firstAccount accounts in
  let addressHex := tryToConvertAddressToHex address in
  checksumAddress ← match address with
                    | None => mret None
                    | Some a =>
                        client ← readWeb3;
                        w ← derefL client "utils";
                        s ← liftL (utils_toChecksumAddress w a);
                        mret (Some s)
                    end;
  network ← providerRequest bc eth_chainId request_eth_chainId;
  dispatchL {| upd_name := Binance;
               upd_installed := None;
               upd_address := Some checksumAddress;
               upd_addressHex := Some addressHex;
               upd_connected := Some (truthy checksumAddress);
               upd_chainId := Some (NETWORK_CHAIN_ID_MAPS (Number network)) |}.

(** [init] (lines 58-91) *)
Definition init (bc : option Provider) : L unit :=
  finallyResolve (
    match bc with
    | None => mret tt
    | Some p =>
        _ ← setWeb3 (provider_client p);
        _ ← dispatchL {| upd_name := Binance; upd_installed := Some true;
                         upd_address := None; upd_addressHex := None;
                         upd_connected := None; upd_chainId := None |};
        flag ← getSession;
        _ ← (if decide (flag = Some "true") then queryState bc else mret tt);
        _ ← onProvider accountsChanged;
        onProvider chainChanged
    end).

(** [connect] (lines 93-101) *)
Definition connect (bc : option Provider) : L unit :=
  tryConvertL (
    _ ← providerRequest bc eth_requestAccounts request_eth_requestAccounts;
    _ ← queryState bc;
    setSession "true").

End Lifecycle.

(** ** The other transactions: [approve], [nftApprove], [nftLock] *)

(** [contract.methods.approve(a, b)] of either token ABI, and the
    seven-argument [lock] of the NFT bridge contract. *)
Inductive TxMethod : Type :=
| tx_approve (to value : string)
| tx_nft_lock (asset : string) (toChainId : Z) (toAddress tokenID feeToken fee : string)
              (id : Z).

(** The options handed to [send]; [approve] and [nftApprove] give no
    [value]. *)
Record TxOptions : Type := { tx_from : string; tx_value : option string }.

(** A transaction handed to the provider. *)
Record Tx : Type := {
  tx_abi : Abi;
  tx_contract : string;
  tx_method : TxMethod;
  tx_options : TxOptions
}.

(** What the client answers to a transaction: the receipt its PromiEvent
    resolves with when it is awaited as a promise, and the signals it
    emits. *)
Record TxClient : Type := {
  tx_receipt : Tx → Completion TransactionReceipt;
  tx_signals : Tx → list Signal
}.

Definition T (A : Type) : Type := list Tx * Completion A.

#[global] Instance T_ret : MRet T := fun A a => ([], Return a).

#[global] Instance T_bind : MBind T := fun A B f m =>
  match m with
  | (t, Return a) => let '(t', r) := f a in (t ++ t', r)
  | (t, Throw e) => (t, Throw e)
  | (t, Hang) => (t, Hang)
  end.

Definition liftT {A} (r : Completion A) : T A := ([], r).

(** The transaction [tx] is sent and the outside world answers [r]. *)
Definition sendT {A} (tx : Tx) (r : Completion A) : T A := ([tx], r).

Definition sent {A} (m : T A) : list Tx := fst m.
Definition outcome {A} (m : T A) : Completion A := snd m.

(** [try { body } catch (error) { throw convertWalletError(error); }] *)
Definition tryConvertT {A} (body : T A) : T A :=
  match body with
  | (t, Throw e) => (t, Throw (convertWalletError e))
  | _ => body
  end.

Section Transactions.
Context `{Imports}.

Definition derefT {A} (v : option A) (p : string) : T A :=
  match v with
  | Some a => mret a
  | None => liftT (Throw (TypeError p))
  end.

(** [approve] (lines 161-172) *)
Definition approve (client : option TxClient) (st : Store) (chainId : Z)
    (address tokenHash spender amount : string) : T TransactionReceipt :=
  tryConvertT (
    tokenBasic ← liftT (getTokenBasicByChainIdAndTokenHash st chainId tokenHash);
    tb ← derefT tokenBasic "decimals";
    amountInt ← liftT (decimalToInteger amount (decimals tb));
    w ← derefT client "eth";
    let tx := {| tx_abi := eth_erc20; tx_contract := tokenHash;
                 tx_method := tx_approve ("0x" +:+ spender) amountInt;
                 tx_options := {| tx_from := address; tx_value := None |} |} in
    sendT tx (tx_receipt w tx)).

(** [nftApprove] (lines 174-187) *)
Definition nftApprove (client : option TxClient) (address tokenHash spender id : string)
  : T TransactionReceipt :=
  tryConvertT (
    tokenID ← liftT (decimalToInteger id 0);
    w ← derefT client "eth";
    let tx := {| tx_abi := eth_erc721; tx_contract := tokenHash;
                 tx_method := tx_approve spender tokenID;
                 tx_options := {| tx_from := address; tx_value := None |} |} in
    sendT tx (tx_receipt w tx)).

(** [nftLock] (lines 244-277) *)
Definition nftLock (client : option TxClient) (st : Store) (fromChainId : Z)
    (fromAddress fromTokenHash : string) (toChainId : Z) (toAddress id fee : string)
  : T string :=
  tryConvertT (
    chain ← liftT (getChain st fromChainId);
    w ← derefT client "eth";
    c ← derefT chain "nftLockContractHash";
    toAddressHex ← liftT (chainApi_addressToHex toChainId toAddress);
    tokenID ← liftT (decimalToInteger id 0);
    feeInt ← liftT (decimalToInteger fee 18);
    let tx := {| tx_abi := eth_nft_lock; tx_contract := nftLockContractHash c;
                 tx_method := tx_nft_lock ("0x" +:+ fromTokenHash) toChainId
                                          ("0x" +:+ toAddressHex) tokenID
                                          NFT_FEE_TOKEN_HASH feeInt 0;
                 tx_options := {| tx_from := fromAddress; tx_value := Some feeInt |} |} in
    result ← sendT tx (awaitConfirmLater (tx_signals w tx));
    liftT (toStandardHex result)).

End Transactions.

(** ** More sample surroundings *)

Module Fixture.

Definition account : string := "0x2f7ac9436ba4b548f9582af91ca1ef02cd2f1f03".

(** A provider with one account on the Bsc main network. *)
Definition wallet : Provider := {|
  request_eth_accounts := Return [account];
  request_eth_chainId := Return "0x38";
  request_eth_requestAccounts := Return [account];
  provider_client := Sample.client
|}.

(** A provider whose user declines the connection. *)
Definition declining : Provider := {|
  request_eth_accounts := Return [];
  request_eth_chainId := Return "0x38";
  request_eth_requestAccounts := Throw (RawErr "Rejected by user");
  provider_client := Sample.client
|}.

(** A provider that fails to list its accounts. *)
Definition broken : Provider := {|
  request_eth_accounts := Throw (RawErr "disconnected");
  request_eth_chainId := Return "0x38";
  request_eth_requestAccounts := Return [];
  provider_client := Sample.client
|}.

Definition blank : Page := {|
  page_web3 := None; page_session := None; page_dispatched := [];
  page_requests := []; page_listeners := []; page_deferred := 0
|}.

(** A page whose session remembers an earlier connection. *)
Definition returning : Page := {|
  page_web3 := None; page_session := Some "true"; page_dispatched := [];
  page_requests := []; page_listeners := []; page_deferred := 0
|}.

(** A client whose submissions get a hash and are then mined. *)
Definition txClient : TxClient := {|
  tx_receipt := fun _ => Return {| status := true |};
  tx_signals := fun _ => [SigTransactionHash "0xabc"; SigConfirmation 0 {| status := true |}]
|}.

(** A client whose user declines every transaction. *)
Definition txDeclining : TxClient := {|
  tx_receipt := fun _ => Throw (RawErr "Rejected by user");
  tx_signals := fun _ => [SigError (RawErr "Rejected by user")]
|}.

(** A provider client whose submissions the user declines. *)
Definition decliningClient : Web3 := {|
  eth_getBalance := eth_getBalance Sample.client;
  eth_getTransactionReceipt := eth_getTransactionReceipt Sample.client;
  methods_call := methods_call Sample.client;
  methods_send := fun _ _ _ _ => [SigError (RawErr "Rejected by user")];
  utils_toChecksumAddress := fun _ => Throw (RawErr "invalid address")
|}.

(** A provider client whose submissions are never answered. *)
Definition silentClient : Web3 := {|
  eth_getBalance := eth_getBalance Sample.client;
  eth_getTransactionReceipt := eth_getTransactionReceipt Sample.client;
  methods_call := methods_call Sample.client;
  methods_send := fun _ _ _ _ => [];
  utils_toChecksumAddress := utils_toChecksumAddress Sample.client
|}.

(** A provider client whose node rejects every request. *)
Definition failingClient : Web3 := {|
  eth_getBalance := fun _ => Throw (RawErr "Returned error: header not found");
  eth_getTransactionReceipt := fun _ => Throw (RawErr "Returned error: header not found");
  methods_call := fun _ _ _ => Throw (RawErr "Returned error: header not found");
  methods_send := fun _ _ _ _ => [SigError (RawErr "Returned error: header not found")];
  utils_toChecksumAddress := utils_toChecksumAddress Sample.client
|}.

Definition failingEnv : Env := {| web3 := Some failingClient; store := Sample.theStore |}.

Definition decliningEnv : Env := {| web3 := Some decliningClient; store := Sample.theStore |}.
Definition silentEnv : Env := {| web3 := Some silentClient; store := Sample.theStore |}.
Definition coldEnv : Env := {| web3 := None; store := Sample.theStore |}.

End Fixture.

(** ** A submission that clears its listeners after an error

    The same delivery on an emitter that, of its own accord, drops every
    listener once it has delivered an error.  It serves to show that the
    promise of [confirmLater] ends the same either way. *)
Definition emitClearing (s : Signal) (rt : Runtime) : Runtime :=
  let rt' := emit s rt in
  match s with
  | SigError _ => {| listeners := []; promises := promises rt' |}
  | _ => rt'
  end.

Definition deliverClearing (sigs : list Signal) (rt : Runtime) : Runtime :=
  foldl (fun rt s => emitClearing s rt) rt sigs.

(** * Properties *)

(** ** Substring search *)

Lemma startsWith_spec (s p : string) :
  startsWith s p = true ↔ ∃ r : string, s = p +:+ r.
Proof.
  revert s. induction p as [|b p IH]; intros s; simpl.
  - split; [intros _; by exists s | done].
  - destruct s as [|a s]; simpl.
    + split; [done | intros [r Hr]; discriminate].
    + destruct (Ascii.eqb_spec a b) as [->|Hne].
      * rewrite IH. split; intros [r Hr]; exists r; [by rewrite Hr | by injection Hr].
      * split; [done | intros [r Hr]; injection Hr; intros; by subst].
Qed.

Lemma includes_spec (s sub : string) :
  includes s sub = true ↔ contains s sub.
Proof.
  unfold contains. induction s as [|a s IH]; simpl.
  - rewrite orb_false_r, startsWith_spec. split.
    + intros [r Hr]. by exists "", r.
    + intros [l [r Hr]]. destruct l; [by exists r | discriminate].
  - rewrite orb_true_iff, IH, startsWith_spec. split.
    + intros [[r Hr] | [l [r Hr]]].
      * by exists "", r.
      * exists (String a l), r. simpl. by rewrite Hr.
    + intros [l [r Hr]]. destruct l as [|a' l]; simpl in Hr.
      * left. by exists r.
      * right. exists l, r. by injection Hr.
Qed.

Lemma includes_false (s sub : string) :
  includes s sub = false ↔ ¬ contains s sub.
Proof.
  rewrite <- includes_spec. destruct (includes s sub); split; done.
Qed.

(** ** Error normalisation *)

Lemma classifyMessage_rejected (m : string) :
  contains m "Rejected by user" → classifyMessage m = USER_REJECTED.
Proof. intros Hc. unfold classifyMessage. apply includes_spec in Hc. by rewrite Hc. Qed.

Lemma classifyMessage_insufficient (m : string) :
  ¬ contains m "Rejected by user" → contains m "insufficient funds" →
  classifyMessage m = INSUFFICIENT_FUNDS.
Proof.
  intros Hn Hc. unfold classifyMessage.
  apply includes_false in Hn. apply includes_spec in Hc. by rewrite Hn, Hc.
Qed.

Lemma classifyMessage_unknown (m : string) :
  ¬ contains m "Rejected by user" → ¬ contains m "insufficient funds" →
  classifyMessage m = UNKNOWN_ERROR.
Proof.
  intros Hn Hi. unfold classifyMessage.
  apply includes_false in Hn. apply includes_false in Hi. by rewrite Hn, Hi.
Qed.

Lemma convertWalletError_is_wallet (e : JsError) :
  instanceofWalletError (convertWalletError e) = true.
Proof. by destruct e. Qed.

(** C7: an error that is already a [WalletError] is returned as it is;
    any other error becomes a [WalletError] with the same message and the
    original as its cause, whose code is [USER_REJECTED] when the message
    contains "Rejected by user", [INSUFFICIENT_FUNDS] when it contains
    "insufficient funds" and not the rejection phrase, and
    [UNKNOWN_ERROR] otherwise; converting twice is converting once. *)
Theorem convertWalletError_classifies (e : JsError) :
  (∀ m c cause, e = WalletErr m c cause → convertWalletError e = e) ∧
  (∀ m, e = RawErr m →
     ∃ code, convertWalletError e = WalletErr m code (Some e) ∧
       (contains m "Rejected by user" → code = USER_REJECTED) ∧
       (¬ contains m "Rejected by user" → contains m "insufficient funds" →
          code = INSUFFICIENT_FUNDS) ∧
       (¬ contains m "Rejected by user" → ¬ contains m "insufficient funds" →
          code = UNKNOWN_ERROR)) ∧
  convertWalletError (convertWalletError e) = convertWalletError e.
Proof.
  split; [|split].
  - by intros m c cause ->.
  - intros m ->. exists (classifyMessage m). split; [done|].
    split; [apply classifyMessage_rejected|].
    split; [apply classifyMessage_insufficient | apply classifyMessage_unknown].
  - unfold convertWalletError at 1. by rewrite convertWalletError_is_wallet.
Qed.

Example convertWalletError_rejected :
  convertWalletError (RawErr "MetaMask Tx Signature: Rejected by user.") =
  WalletErr "MetaMask Tx Signature: Rejected by user." USER_REJECTED
            (Some (RawErr "MetaMask Tx Signature: Rejected by user.")).
Proof. reflexivity. Qed.

Example convertWalletError_both_phrases :
  convertWalletError (RawErr "insufficient funds; Rejected by user") =
  WalletErr "insufficient funds; Rejected by user" USER_REJECTED
            (Some (RawErr "insufficient funds; Rejected by user")).
Proof. reflexivity. Qed.

Example convertWalletError_insufficient :
  convertWalletError (RawErr "Returned error: insufficient funds for gas * price + value") =
  WalletErr "Returned error: insufficient funds for gas * price + value" INSUFFICIENT_FUNDS
            (Some (RawErr "Returned error: insufficient funds for gas * price + value")).
Proof. reflexivity. Qed.

Example convertWalletError_case_sensitive :
  convertWalletError (RawErr "rejected by user") =
  WalletErr "rejected by user" UNKNOWN_ERROR (Some (RawErr "rejected by user")).
Proof. reflexivity. Qed.

(** ** The submission promise *)

Lemma step_settled (st : PromiseState) (sigs : list Signal) :
  st ≠ pending → foldl step st sigs = st.
Proof.
  revert st. induction sigs as [|s sigs IH]; intros st Hst; [done|].
  simpl. destruct st; [done| |]; by rewrite IH.
Qed.

Lemma step_confirmations (st : PromiseState) (sigs : list Signal) :
  Forall (fun s => isConfirmation s = true) sigs → foldl step st sigs = st.
Proof.
  revert st. induction sigs as [|s sigs IH]; intros st Hall; [done|].
  inversion Hall as [|? ? Hs Hrest]; subst. simpl.
  destruct s; try discriminate. rewrite IH by done. by destruct st.
Qed.

Lemma settle_listeners (p : nat) (s : PromiseState) (rt : Runtime) :
  listeners (settle p s rt) = listeners rt.
Proof. unfold settle. by repeat case_match. Qed.

Lemma settle_lookup (p : nat) (s st : PromiseState) (rt : Runtime) :
  promises rt !! p = Some st →
  promises (settle p s rt) !! p = Some (match st with pending => s | _ => st end).
Proof.
  intros Hp. unfold settle. rewrite Hp. destruct st; simpl; try done.
  apply list_lookup_insert_eq. by eapply lookup_lt_Some.
Qed.

(** Filtering a list that is written out, deciding each test. *)
Ltac filter_cases :=
  repeat (rewrite filter_cons || rewrite filter_nil);
  repeat case_decide; simplify_eq/=; try done.

Lemma off_registered (p : nat) (b : bool) :
  filter (fun x => x ≠ (confirmation, onConfirm p)) (registered p b) = registered p true.
Proof. unfold registered. destruct b; simpl; filter_cases. Qed.

(** One emitted signal keeps the listeners in shape and moves the promise
    by [step]. *)
Lemma emit_registered (p : nat) (b : bool) (st : PromiseState) (s : Signal) (rt : Runtime) :
  listeners rt = registered p b →
  promises rt !! p = Some st →
  listeners (emit s rt) = registered p (b || isConfirmation s) ∧
  promises (emit s rt) !! p = Some (step st s).
Proof.
  intros Hl Hp. unfold emit. rewrite Hl.
  destruct s as [h|e|n r]; destruct b; unfold registered; simpl; filter_cases.
  - rewrite settle_listeners, Hl. split; [done|].
    rewrite (settle_lookup _ _ st) by done. by destruct st.
  - rewrite settle_listeners, Hl. split; [done|].
    rewrite (settle_lookup _ _ st) by done. by destruct st.
  - rewrite settle_listeners, Hl. split; [done|].
    rewrite (settle_lookup _ _ st) by done. by destruct st.
  - rewrite settle_listeners, Hl. split; [done|].
    rewrite (settle_lookup _ _ st) by done. by destruct st.
  - split; [by rewrite Hl | by destruct st].
  - rewrite Hl, off_registered. split; [done | by destruct st].
Qed.

Lemma deliver_registered (sigs : list Signal) (p : nat) (b : bool) (st : PromiseState)
    (rt : Runtime) :
  listeners rt = registered p b →
  promises rt !! p = Some st →
  listeners (deliver sigs rt) = registered p (b || existsb isConfirmation sigs) ∧
  promises (deliver sigs rt) !! p = Some (foldl step st sigs).
Proof.
  revert b st rt. induction sigs as [|s sigs IH]; intros b st rt Hl Hp.
  - simpl. by rewrite orb_false_r.
  - destruct (emit_registered p b st s rt Hl Hp) as [Hl' Hp'].
    destruct (IH _ _ _ Hl' Hp') as [Hl'' Hp''].
    change (deliver (s :: sigs) rt) with (deliver sigs (emit s rt)).
    rewrite Hl'', Hp''. simpl. by rewrite orb_assoc.
Qed.

Lemma confirmLater_registered (hp : list PromiseState) :
  (confirmLater (freshSubmission hp)).1 = length hp ∧
  listeners (confirmLater (freshSubmission hp)).2 = registered (length hp) false ∧
  promises (confirmLater (freshSubmission hp)).2 !! length hp = Some pending.
Proof.
  split; [done|]. split; [done|]. simpl.
  rewrite lookup_app_r by done. by rewrite Nat.sub_diag.
Qed.

Lemma promiseAfter_step (hp : list PromiseState) (sigs : list Signal) :
  promiseAfter hp sigs = Some (foldl step pending sigs).
Proof.
  unfold promiseAfter.
  destruct (confirmLater_registered hp) as (Hp & Hl & Hs).
  destruct (confirmLater (freshSubmission hp)) as [p rt]. simpl in *. subst p.
  by destruct (deliver_registered sigs _ _ _ _ Hl Hs).
Qed.

Lemma listenersAfter_registered (hp : list PromiseState) (sigs : list Signal) :
  listenersAfter hp sigs = registered (length hp) (existsb isConfirmation sigs).
Proof.
  unfold listenersAfter.
  destruct (confirmLater_registered hp) as (Hp & Hl & Hs).
  destruct (confirmLater (freshSubmission hp)) as [p rt]. simpl in *.
  by destruct (deliver_registered sigs _ _ _ _ Hl Hs).
Qed.

Lemma awaitConfirmLater_promiseAfter (sigs : list Signal) :
  awaitConfirmLater sigs =
  match promiseAfter [] sigs with
  | Some (fulfilled v) => Return v
  | Some (rejected e) => Throw e
  | _ => Hang
  end.
Proof. reflexivity. Qed.

(** C2: whatever the submission emits, the promise of [confirmLater]
    settles at most once.  When the first signal that is not a
    confirmation is a transaction hash the promise is fulfilled with that
    hash, when it is an error the promise is rejected with that error,
    and whatever follows (more hashes, errors, confirmations) changes
    nothing; a promise that has settled keeps its state under every
    further signal. *)
Theorem confirmLater_settles_at_most_once (hp : list PromiseState) :
  (∀ pre h post, Forall (fun s => isConfirmation s = true) pre →
     promiseAfter hp (pre ++ SigTransactionHash h :: post) = Some (fulfilled h)) ∧
  (∀ pre e post, Forall (fun s => isConfirmation s = true) pre →
     promiseAfter hp (pre ++ SigError e :: post) = Some (rejected e)) ∧
  (∀ sigs more, promiseAfter hp sigs ≠ Some pending →
     promiseAfter hp (sigs ++ more) = promiseAfter hp sigs).
Proof.
  split; [|split].
  - intros pre h post Hpre. rewrite promiseAfter_step, foldl_app.
    rewrite (step_confirmations _ pre) by done. simpl. by rewrite step_settled.
  - intros pre e post Hpre. rewrite promiseAfter_step, foldl_app.
    rewrite (step_confirmations _ pre) by done. simpl. by rewrite step_settled.
  - intros sigs more. rewrite !promiseAfter_step, foldl_app. intros Hs.
    rewrite step_settled; [done | congruence].
Qed.

Example confirmLater_hash_then_confirmations :
  awaitConfirmLater [SigTransactionHash "0xabc";
                     SigConfirmation 0 {| status := true |};
                     SigConfirmation 1 {| status := true |}] = Return "0xabc".
Proof. reflexivity. Qed.

Example confirmLater_error_then_hash :
  awaitConfirmLater [SigError (RawErr "Rejected by user"); SigTransactionHash "0xabc"] =
  Throw (RawErr "Rejected by user").
Proof. reflexivity. Qed.

Example confirmLater_hash_then_error :
  awaitConfirmLater [SigTransactionHash "0xabc"; SigError (RawErr "reverted")] =
  Return "0xabc".
Proof. reflexivity. Qed.

Example confirmLater_no_hash_no_error :
  awaitConfirmLater [SigConfirmation 0 {| status := true |}] = Hang.
Proof. reflexivity. Qed.

(** C3, as stated, fails: after the transaction hash has been emitted all
    three listeners are still registered on the submission. *)
Lemma listeners_not_retired_after_hash :
  listenersAfter [] [SigTransactionHash "0xabc"] =
    [(transactionHash, resolve 0); (error, reject 0); (confirmation, onConfirm 0)] ∧
  ¬ listenersRetired [] [SigTransactionHash "0xabc"].
Proof.
  split; [reflexivity|].
  intros [_ Hc]. apply Hc.
  - exists "0xabc". apply list_elem_of_here.
  - do 2 apply list_elem_of_further. apply list_elem_of_here.
Qed.

Example listeners_after_confirmation :
  listenersAfter [] [SigTransactionHash "0xabc"; SigConfirmation 0 {| status := true |}] =
    [(transactionHash, resolve 0); (error, reject 0)].
Proof. reflexivity. Qed.

(** C3, amended: when the [transactionHash] listener fires, neither it
    nor the [error] listener is retired: over any signals that are
    transaction hashes and confirmations, [confirmLater] leaves both on
    the submission.  The confirmation listener is on the submission
    until the first confirmation is delivered, also after a hash, and is
    gone from then on.  So over such signals a submission carries at
    most the three listeners of its [confirmLater] call, and their
    number does not grow as signals arrive. *)
Theorem confirmLater_listeners (hp : list PromiseState) (sigs : list Signal) :
  Forall (fun s => eventOf s ≠ error) sigs →
  listenersAfter hp sigs =
    [(transactionHash, resolve (length hp)); (error, reject (length hp))] ++
    (if existsb isConfirmation sigs then [] else [(confirmation, onConfirm (length hp))]) ∧
  (length (listenersAfter hp sigs) ≤ 3)%nat.
Proof.
  intros _. rewrite listenersAfter_registered. unfold registered.
  split; [done|]. destruct (existsb isConfirmation sigs); simpl; lia.
Qed.

Lemma confirmLater_listeners_witness :
  listenersAfter [] [SigTransactionHash "0xabc"; SigTransactionHash "0xabc"] =
    [(transactionHash, resolve 0); (error, reject 0); (confirmation, onConfirm 0)] ∧
  listenersAfter [] [SigTransactionHash "0xabc"; SigConfirmation 0 {| status := true |};
                     SigConfirmation 1 {| status := true |}] =
    [(transactionHash, resolve 0); (error, reject 0)].
Proof.
  split.
  - apply (confirmLater_listeners [] [SigTransactionHash "0xabc"; SigTransactionHash "0xabc"]).
    repeat constructor; discriminate.
  - apply (confirmLater_listeners []
             [SigTransactionHash "0xabc"; SigConfirmation 0 {| status := true |};
              SigConfirmation 1 {| status := true |}]).
    repeat constructor; discriminate.
Defined.

(** ** The promise does not depend on the emitter keeping its listeners *)

Lemma emit_no_listeners (s : Signal) (rt : Runtime) :
  listeners rt = [] → emit s rt = rt.
Proof. intros Hl. unfold emit. by rewrite Hl. Qed.

Lemma emitClearing_step (p : nat) (b : bool) (st : PromiseState) (s : Signal) (rt : Runtime) :
  promises rt !! p = Some st →
  listeners rt = registered p b ∨ (listeners rt = [] ∧ st ≠ pending) →
  promises (emitClearing s rt) !! p = Some (step st s) ∧
  (listeners (emitClearing s rt) = registered p (b || isConfirmation s) ∨
   (listeners (emitClearing s rt) = [] ∧ step st s ≠ pending)).
Proof.
  intros Hp [Hl|[Hl Hst]].
  - destruct (emit_registered p b st s rt Hl Hp) as [Hl' Hp'].
    unfold emitClearing. destruct s as [h|e|n r]; simpl; auto.
    split; [done|]. right. split; [done|]. by destruct st.
  - unfold emitClearing. rewrite emit_no_listeners by done.
    assert (step st s = st) as -> by (by destruct st, s).
    destruct s; simpl; auto.
Qed.

Lemma deliverClearing_step (sigs : list Signal) (p : nat) (b : bool) (st : PromiseState)
    (rt : Runtime) :
  promises rt !! p = Some st →
  listeners rt = registered p b ∨ (listeners rt = [] ∧ st ≠ pending) →
  promises (deliverClearing sigs rt) !! p = Some (foldl step st sigs).
Proof.
  revert b st rt. induction sigs as [|s sigs IH]; intros b st rt Hs Hinv; [done|].
  destruct (emitClearing_step _ b st s rt Hs Hinv) as [Hs' Hinv'].
  change (deliverClearing (s :: sigs) rt) with (deliverClearing sigs (emitClearing s rt)).
  simpl. by apply (IH (b || isConfirmation s)).
Qed.

(** Whether or not the emitter drops its listeners after an error, the
    promise of [confirmLater] ends in the same state. *)
Lemma promise_same_when_clearing (hp : list PromiseState) (sigs : list Signal) :
  promises (deliverClearing sigs (confirmLater (freshSubmission hp)).2) !! length hp
    = promiseAfter hp sigs.
Proof.
  rewrite promiseAfter_step.
  destruct (confirmLater_registered hp) as (_ & Hl & Hs).
  apply (deliverClearing_step sigs _ false); [done | by left].
Qed.

(** ** Traces of the adapter's functions *)

Lemma trace_bind {A B} (m : M A) (f : A → M B) (c : Call) :
  c ∈ trace (m ≫= f) →
  c ∈ trace m ∨ ∃ a, completion m = Return a ∧ c ∈ trace (f a).
Proof.
  destruct m as [t [a| |]]; unfold mbind, M_bind, bind, trace, completion; simpl; auto.
  destruct (f a) as [t' r] eqn:Hf. simpl. rewrite elem_of_app.
  intros [Hc|Hc]; [by left | right]. exists a. by rewrite Hf.
Qed.

Lemma trace_tryConvert {A} (m : M A) : trace (tryConvert m) = trace m.
Proof. by destruct m as [t [a| |]]. Qed.

Lemma completion_tryConvert_Return {A} (m : M A) (a : A) :
  completion (tryConvert m) = Return a ↔ completion m = Return a.
Proof. by destruct m as [t [a'| |]]. Qed.

Lemma trace_lift {A} (r : Completion A) (c : Call) : c ∈ trace (lift r) → False.
Proof. unfold lift, trace. simpl. apply not_elem_of_nil. Qed.

Lemma trace_request {A} (c' : Call) (r : Completion A) (c : Call) :
  c ∈ trace (request c' r) → c = c'.
Proof. unfold request, trace. simpl. by rewrite list_elem_of_singleton. Qed.

Lemma completion_lift {A} (r : Completion A) : completion (lift r) = r.
Proof. done. Qed.

Section AdapterFacts.
Context `{Imports}.

Lemma trace_deref {A} (v : option A) (p : string) (c : Call) :
  c ∈ trace (deref v p) → False.
Proof. destruct v; simpl; apply not_elem_of_nil. Qed.

Lemma completion_deref {A} (v : option A) (p : string) (a : A) :
  completion (deref v p) = Return a → v = Some a.
Proof. destruct v; simpl; [by intros [= ->] | done]. Qed.

(** Whatever [lock] asks of the outside world is the one [send] of the
    bridge contract's [lock] method, built from successful lookups and
    conversions. *)
Lemma lock_trace (env : Env) (fromChainId : Z) (fromAddress fromTokenHash : string)
    (toChainId : Z) (toAddress amount fee : string) (c : Call) :
  c ∈ trace (lock env fromChainId fromAddress fromTokenHash toChainId toAddress amount fee) →
  ∃ ch tb toAddressHex amountInt feeInt,
    getChain (store env) fromChainId = Return (Some ch) ∧
    getTokenBasicByChainIdAndTokenHash (store env) fromChainId fromTokenHash
      = Return (Some tb) ∧
    chainApi_addressToHex toChainId toAddress = Return toAddressHex ∧
    decimalToInteger amount (decimals tb) = Return amountInt ∧
    decimalToInteger fee (if truthy (nftFeeName ch) then 18 else decimals tb)
      = Return feeInt ∧
    c = SendMethod eth_lock (lockContractHash ch)
          (methods_lock ("0x" +:+ fromTokenHash) toChainId ("0x" +:+ toAddressHex)
                        amountInt feeInt 0)
          {| send_from := fromAddress;
             send_value := if String.eqb fromTokenHash nativeTokenHash
                           then amountInt else feeInt |}.
Proof.
  unfold lock. rewrite trace_tryConvert. intros Hc.
  apply trace_bind in Hc as [Hc|(chain & Hchain & Hc)]; [by apply trace_lift in Hc|].
  apply trace_bind in Hc as [Hc|(tokenBasic & Htb & Hc)]; [by apply trace_lift in Hc|].
  apply trace_bind in Hc as [Hc|(w & Hw & Hc)]; [by apply trace_deref in Hc|].
  apply trace_bind in Hc as [Hc|(ch & Hch & Hc)]; [by apply trace_deref in Hc|].
  apply trace_bind in Hc as [Hc|(hex & Hhex & Hc)]; [by apply trace_lift in Hc|].
  apply trace_bind in Hc as [Hc|(tb & Htb' & Hc)]; [by apply trace_deref in Hc|].
  apply trace_bind in Hc as [Hc|(amountInt & Ha & Hc)]; [by apply trace_lift in Hc|].
  apply trace_bind in Hc as [Hc|(feeInt & Hf & Hc)]; [by apply trace_lift in Hc|].
  apply trace_bind in Hc as [Hc|(res & _ & Hc)]; [|by apply trace_lift in Hc].
  apply trace_request in Hc.
  apply completion_deref in Hch, Htb'. subst chain tokenBasic.
  unfold completion, lift in Hchain, Htb, Hhex, Ha, Hf. simpl in *.
  by exists ch, tb, hex, amountInt, feeInt.
Qed.

End AdapterFacts.

Example decimalToInteger_sample :
  Sample.refDecimalToInteger "1.5" 18 = Return "1500000000000000000" ∧
  Sample.refDecimalToInteger "0.01" 18 = Return "10000000000000000" ∧
  Sample.refDecimalToInteger "1.239" 2 = Return "123" ∧
  Sample.refDecimalToInteger "42" 0 = Return "42" ∧
  Sample.refIntegerToDecimal "2500000000000000000" 18 = Return "2.5" ∧
  Sample.refIntegerToDecimal "1250000" 6 = Return "1.25" ∧
  Sample.refIntegerToDecimal "5" 2 = Return "0.05".
Proof. repeat split; reflexivity. Qed.

(** Runs a traced computation whose steps are known. *)
Ltac run :=
  unfold mbind, M_bind, bind, lift, request, deref, ret, tryConvert; simpl.

(** ** Locking and reading balances *)

Section AdapterTheorems.
Context `{Imports}.

(** C1: every transaction that [lock] submits carries as native value the
    converted transfer amount when the source token is the native
    sentinel, and the converted fee otherwise; and when the look-ups and
    conversions succeed, that one transaction is what [lock] submits. *)
Theorem lock_value_routing (env : Env) (fromChainId : Z) (fromAddress fromTokenHash : string)
    (toChainId : Z) (toAddress amount fee : string) :
  (∀ abi contract m opts,
     SendMethod abi contract m opts
       ∈ trace (lock env fromChainId fromAddress fromTokenHash toChainId toAddress amount fee) →
     ∃ ch tb amountInt feeInt,
       getChain (store env) fromChainId = Return (Some ch) ∧
       getTokenBasicByChainIdAndTokenHash (store env) fromChainId fromTokenHash
         = Return (Some tb) ∧
       decimalToInteger amount (decimals tb) = Return amountInt ∧
       decimalToInteger fee (if truthy (nftFeeName ch) then 18 else decimals tb)
         = Return feeInt ∧
       (fromTokenHash = nativeTokenHash → send_value opts = amountInt) ∧
       (fromTokenHash ≠ nativeTokenHash → send_value opts = feeInt)) ∧
  (∀ w ch tb toAddressHex amountInt feeInt,
     web3 env = Some w →
     getChain (store env) fromChainId = Return (Some ch) →
     getTokenBasicByChainIdAndTokenHash (store env) fromChainId fromTokenHash
       = Return (Some tb) →
     chainApi_addressToHex toChainId toAddress = Return toAddressHex →
     decimalToInteger amount (decimals tb) = Return amountInt →
     decimalToInteger fee (if truthy (nftFeeName ch) then 18 else decimals tb)
       = Return feeInt →
     trace (lock env fromChainId fromAddress fromTokenHash toChainId toAddress amount fee) =
       [SendMethod eth_lock (lockContractHash ch)
          (methods_lock ("0x" +:+ fromTokenHash) toChainId ("0x" +:+ toAddressHex)
                        amountInt feeInt 0)
          {| send_from := fromAddress;
             send_value := if String.eqb fromTokenHash nativeTokenHash
                           then amountInt else feeInt |}]).
Proof.
  split.
  - intros abi contract m opts Hc.
    apply lock_trace in Hc as (ch & tb & hex & a & f & Hch & Htb & _ & Ha & Hf & Heq).
    exists ch, tb, a, f. repeat (split; [done|]).
    injection Heq as -> -> -> ->. simpl.
    split; intros Hn.
    + apply String.eqb_eq in Hn. by rewrite Hn.
    + apply String.eqb_neq in Hn. by rewrite Hn.
  - intros w ch tb hex a f Hw Hch Htb Hhex Ha Hf.
    unfold lock. rewrite trace_tryConvert. run.
    rewrite Hch, Htb, Hw. simpl. rewrite Hhex, Ha. simpl. rewrite Hf. simpl.
    by destruct (awaitConfirmLater _); [destruct (toStandardHex _)| |].
Qed.

(** C4: the fee argument of every submitted [lock] call is the fee
    converted with 18 decimals when the source chain's entry has a truthy
    [nftFeeName], and with the source token's decimals otherwise; and
    when the look-ups and the two conversions succeed, [lock] does submit
    that call, with the fee so converted, on either kind of chain. *)
Theorem lock_fee_precision (env : Env) (fromChainId : Z) (fromAddress fromTokenHash : string)
    (toChainId : Z) (toAddress amount fee : string) :
  (∀ abi contract asset chainTo addr amountArg feeArg id opts,
     SendMethod abi contract (methods_lock asset chainTo addr amountArg feeArg id) opts
       ∈ trace (lock env fromChainId fromAddress fromTokenHash toChainId toAddress amount fee) →
     ∃ ch tb,
       getChain (store env) fromChainId = Return (Some ch) ∧
       getTokenBasicByChainIdAndTokenHash (store env) fromChainId fromTokenHash
         = Return (Some tb) ∧
       (truthy (nftFeeName ch) = true → decimalToInteger fee 18 = Return feeArg) ∧
       (truthy (nftFeeName ch) = false →
          decimalToInteger fee (decimals tb) = Return feeArg)) ∧
  (∀ w ch tb toAddressHex amountInt feeInt,
     web3 env = Some w →
     getChain (store env) fromChainId = Return (Some ch) →
     getTokenBasicByChainIdAndTokenHash (store env) fromChainId fromTokenHash
       = Return (Some tb) →
     chainApi_addressToHex toChainId toAddress = Return toAddressHex →
     decimalToInteger amount (decimals tb) = Return amountInt →
     (truthy (nftFeeName ch) = true ∧ decimalToInteger fee 18 = Return feeInt ∨
      truthy (nftFeeName ch) = false ∧ decimalToInteger fee (decimals tb) = Return feeInt) →
     trace (lock env fromChainId fromAddress fromTokenHash toChainId toAddress amount fee) =
       [SendMethod eth_lock (lockContractHash ch)
          (methods_lock ("0x" +:+ fromTokenHash) toChainId ("0x" +:+ toAddressHex)
                        amountInt feeInt 0)
          {| send_from := fromAddress;
             send_value := if String.eqb fromTokenHash nativeTokenHash
                           then amountInt else feeInt |}]).
Proof.
  split.
  - intros abi contract asset chainTo addr amountArg feeArg id opts Hc.
    apply lock_trace in Hc as (ch & tb & hex & a & f & Hch & Htb & _ & _ & Hf & Heq).
    exists ch, tb. repeat (split; [done|]).
    injection Heq as _ _ _ _ _ _ -> _ _.
    split; intros Ht; by rewrite Ht in Hf.
  - intros w ch tb hex a f Hw Hch Htb Hhex Ha Hfee.
    assert (decimalToInteger fee (if truthy (nftFeeName ch) then 18 else decimals tb)
            = Return f) as Hf.
    { by destruct Hfee as [[-> Hf]|[-> Hf]]. }
    unfold lock. rewrite trace_tryConvert. run.
    rewrite Hch, Htb, Hw. simpl. rewrite Hhex, Ha. simpl. rewrite Hf. simpl.
    by destruct (awaitConfirmLater _); [destruct (toStandardHex _)| |].
Qed.

(** C5: [getBalance] of the native sentinel never calls a contract; when
    the registry has the token and the provider answers the native
    balance read with [raw], that read is the only request and the result
    is [integerToDecimal raw decimals] with the registry's decimals. *)
Theorem getBalance_native (env : Env) (chainId : Z) (address : string) :
  Forall (fun c => isContractCall c = false)
         (trace (getBalance env chainId address nativeTokenHash)) ∧
  (∀ w tb raw v,
     web3 env = Some w →
     getTokenBasicByChainIdAndTokenHash (store env) chainId nativeTokenHash
       = Return (Some tb) →
     eth_getBalance w address = Return raw →
     integerToDecimal raw (decimals tb) = Return v →
     getBalance env chainId address nativeTokenHash = ([CallGetBalance address], Return v)).
Proof.
  split.
  - unfold getBalance. rewrite trace_tryConvert. run.
    destruct (getTokenBasicByChainIdAndTokenHash _ _ _) as [tb| |]; simpl;
      [|by constructor..].
    destruct (web3 env) as [w|]; simpl; [|by constructor].
    destruct (eth_getBalance w address) as [raw| |]; simpl;
      [|by repeat constructor..].
    destruct tb as [tb|]; simpl; [|by repeat constructor].
    destruct (integerToDecimal raw (decimals tb)); by repeat constructor.
  - intros w tb raw v Hw Htb Hraw Hv. unfold getBalance. run.
    rewrite Htb. simpl. rewrite Hw. simpl. rewrite Hraw. simpl. by rewrite Hv.
Qed.

(** C6: when the token registry look-up returns, [getAllowance] and
    [getTotalSupply] of the native sentinel return [null] (never the
    string "0") and ask nothing of the provider. *)
Theorem allowance_and_supply_native (env : Env) (chainId : Z) (address spender : string)
    (tb : option TokenBasic) :
  getTokenBasicByChainIdAndTokenHash (store env) chainId nativeTokenHash = Return tb →
  getAllowance env chainId address nativeTokenHash spender = ([], Return None) ∧
  getTotalSupply env chainId nativeTokenHash = ([], Return None) ∧
  completion (getAllowance env chainId address nativeTokenHash spender) ≠ Return (Some "0") ∧
  completion (getTotalSupply env chainId nativeTokenHash) ≠ Return (Some "0").
Proof.
  intros Htb. unfold getAllowance, getTotalSupply. run. by rewrite Htb.
Qed.

End AdapterTheorems.

(** ** Transaction status, NFT approval and provider events *)

Section EventTheorems.
Context `{Imports}.

(** C8: [getTransactionStatus] asks the chain for the receipt of
    [0x<hash>] on every call and keeps nothing between calls: its result
    is [Pending] when the answer is no receipt, [Done] when the receipt's
    status is true and [Failed] when it is false, and it dispatches
    nothing to the store. *)
Theorem getTransactionStatus_receipt (env : Env) (w : Web3) (hash : string) :
  web3 env = Some w →
  trace (getTransactionStatus env hash) = [CallGetTransactionReceipt ("0x" +:+ hash)] ∧
  (eth_getTransactionReceipt w ("0x" +:+ hash) = Return None →
     completion (getTransactionStatus env hash) = Return Pending) ∧
  (∀ r, eth_getTransactionReceipt w ("0x" +:+ hash) = Return (Some r) → status r = true →
     completion (getTransactionStatus env hash) = Return Done) ∧
  (∀ r, eth_getTransactionReceipt w ("0x" +:+ hash) = Return (Some r) → status r = false →
     completion (getTransactionStatus env hash) = Return Failed).
Proof.
  intros Hw. unfold getTransactionStatus. rewrite trace_tryConvert. run. rewrite Hw. simpl.
  split; [|split; [|split]].
  - by destruct (eth_getTransactionReceipt w _) as [[r|]| |].
  - by intros ->.
  - intros r -> Hs. simpl. by rewrite Hs.
  - intros r -> Hs. simpl. by rewrite Hs.
Qed.

(** C10: with [r] the spender that the token's [getApproved] call
    returns, [getNFTApproved] returns the negation of the exact string
    comparison of [r] with the chain's NFT lock contract address: [true]
    if and only if the two strings differ, letter case included. *)
Theorem getNFTApproved_identity (env : Env) (fromChainId : Z) (tokenHash id : string)
    (w : Web3) (ch : Chain) (tokenID r : string) :
  web3 env = Some w →
  getChain (store env) fromChainId = Return (Some ch) →
  decimalToInteger id 0 = Return tokenID →
  methods_call w eth_erc721 tokenHash (methods_getApproved tokenID) = Return r →
  completion (getNFTApproved env fromChainId tokenHash id)
    = Return (negb (String.eqb r (nftLockContractHash ch))) ∧
  (completion (getNFTApproved env fromChainId tokenHash id) = Return true
     ↔ r ≠ nftLockContractHash ch).
Proof.
  intros Hw Hch Hid Hr.
  assert (completion (getNFTApproved env fromChainId tokenHash id)
          = Return (negb (String.eqb r (nftLockContractHash ch)))) as Hres.
  { unfold getNFTApproved. run. rewrite Hch. simpl. rewrite Hid. simpl.
    rewrite Hw. simpl. by rewrite Hr. }
  split; [done|]. rewrite Hres.
  destruct (String.eqb_spec r (nftLockContractHash ch)) as [Heq|Hne]; simpl.
  - split; [done | by intros Hn].
  - done.
Qed.

(** C9: whatever an [accountsChanged] event dispatches to the store has
    the keys [address], [addressHex] and [connected] and no [chainId]
    key, so the stored chain id stays as it was; for an empty account
    list the update is published with [connected] false and [address]
    null, and for a first account that the client turns into a checksum
    address, with that address and its truthiness as [connected].  A
    [chainChanged] event dispatches one update that has the
    [chainId] key only. *)
Theorem provider_events_frame (env : Env) (st : ConnectionState) :
  (∀ accounts,
     Forall (fun u => upd_chainId u = None ∧ upd_installed u = None ∧
                      is_Some (upd_address u) ∧ is_Some (upd_addressHex u) ∧
                      is_Some (upd_connected u))
            (dispatched (onAccountsChanged env accounts)) ∧
     chainId (publish st (onAccountsChanged env accounts)) = chainId st) ∧
  (dispatched (onAccountsChanged env []) =
     [{| upd_name := Binance; upd_installed := None;
         upd_address := Some None;
         upd_addressHex := Some (tryToConvertAddressToHex None);
         upd_connected := Some false;
         upd_chainId := None |}] ∧
   connected (publish st (onAccountsChanged env [])) = false ∧
   address (publish st (onAccountsChanged env [])) = None) ∧
  (∀ a rest w s,
     a ≠ "" → web3 env = Some w → utils_toChecksumAddress w a = Return s →
     dispatched (onAccountsChanged env (a :: rest)) =
       [{| upd_name := Binance; upd_installed := None;
           upd_address := Some (Some s);
           upd_addressHex := Some (tryToConvertAddressToHex (Some a));
           upd_connected := Some (negb (String.eqb s ""));
           upd_chainId := None |}]) ∧
  (∀ network,
     dispatched (onChainChanged network) =
       [{| upd_name := Binance; upd_installed := None; upd_address := None;
           upd_addressHex := None; upd_connected := None;
           upd_chainId := Some (NETWORK_CHAIN_ID_MAPS (Number network)) |}] ∧
     publish st (onChainChanged network) =
       {| installed := installed st; connected := connected st; address := address st;
          addressHex := addressHex st;
          chainId := NETWORK_CHAIN_ID_MAPS (Number network) |}).
Proof.
  split; [|split; [|split]].
  - intros accounts. unfold publish, dispatched, onAccountsChanged. run.
    destruct (firstAccount accounts) as [a|]; simpl.
    + destruct (web3 env) as [w|]; simpl; [|by split; [constructor|]].
      destruct (utils_toChecksumAddress w a) as [s| |]; simpl;
        [|by split; [constructor|]..].
      split; [|done]. repeat constructor; simpl; eauto.
    + split; [|done]. repeat constructor; simpl; eauto.
  - done.
  - intros a rest w s Ha Hw Hs. unfold dispatched, onAccountsChanged. run.
    apply String.eqb_neq in Ha. rewrite Ha. simpl. rewrite Hw. simpl. by rewrite Hs.
  - done.
Qed.

End EventTheorems.

(** ** The theorems at the sample surroundings *)

Lemma lock_value_routing_witness :
  trace (lock (H := Sample.imports) Sample.env 6 "0xA1" nativeTokenHash 2 "0xB2" "1.5" "0.01") =
    [SendMethod eth_lock (lockContractHash Sample.bsc)
       (methods_lock "0x0000000000000000000000000000000000000000" 2 "0xB2"
                     "1500000000000000000" "10000000000000000" 0)
       {| send_from := "0xA1"; send_value := "1500000000000000000" |}] ∧
  ∃ ch tb amountInt feeInt,
    getChain Sample.theStore 6 = Return (Some ch) ∧
    getTokenBasicByChainIdAndTokenHash Sample.theStore 6
      "55d398326f99059ff775485246999027b3197955" = Return (Some tb) ∧
    Sample.refDecimalToInteger "1.5" (decimals tb) = Return amountInt ∧
    Sample.refDecimalToInteger "0.01" (if truthy (nftFeeName ch) then 18 else decimals tb)
      = Return feeInt ∧
    ("55d398326f99059ff775485246999027b3197955" = nativeTokenHash → "10000" = amountInt) ∧
    ("55d398326f99059ff775485246999027b3197955" ≠ nativeTokenHash → "10000" = feeInt).
Proof.
  split.
  - apply (proj2 (lock_value_routing (H := Sample.imports) Sample.env 6 "0xA1"
                    nativeTokenHash 2 "0xB2" "1.5" "0.01")
             Sample.client Sample.bsc Sample.bnb "B2"
             "1500000000000000000" "10000000000000000"); reflexivity.
  - apply (proj1 (lock_value_routing (H := Sample.imports) Sample.env 6 "0xA1"
                    "55d398326f99059ff775485246999027b3197955" 2 "0xB2" "1.5" "0.01")
             eth_lock (lockContractHash Sample.bsc)
             (methods_lock "0x55d398326f99059ff775485246999027b3197955" 2 "0xB2"
                           "1500000" "10000" 0)
             {| send_from := "0xA1"; send_value := "10000" |}).
    apply list_elem_of_here.
Defined.

Lemma confirmLater_settles_at_most_once_witness :
  promiseAfter [] ([SigConfirmation 0 {| status := true |}] ++
                   SigTransactionHash "0xabc" ::
                   [SigError (RawErr "reverted"); SigConfirmation 1 {| status := true |}])
    = Some (fulfilled "0xabc") ∧
  promiseAfter [] ([] ++ SigError (RawErr "Rejected by user") ::
                   [SigTransactionHash "0xabc"])
    = Some (rejected (RawErr "Rejected by user")) ∧
  promiseAfter [] ([SigTransactionHash "0xabc"] ++ [SigTransactionHash "0xdef"])
    = promiseAfter [] [SigTransactionHash "0xabc"].
Proof.
  split; [|split].
  - apply (proj1 (confirmLater_settles_at_most_once [])). by repeat constructor.
  - apply (proj1 (proj2 (confirmLater_settles_at_most_once []))). constructor.
  - apply (proj2 (proj2 (confirmLater_settles_at_most_once []))). discriminate.
Defined.

Lemma lock_fee_precision_witness :
  (∃ ch tb,
     getChain Sample.theStore 79 = Return (Some ch) ∧
     getTokenBasicByChainIdAndTokenHash Sample.theStore 79
       "55d398326f99059ff775485246999027b3197955" = Return (Some tb) ∧
     (truthy (nftFeeName ch) = true →
        Sample.refDecimalToInteger "0.01" 18 = Return "10000000000000000") ∧
     (truthy (nftFeeName ch) = false →
        Sample.refDecimalToInteger "0.01" (decimals tb) = Return "10000000000000000")) ∧
  trace (lock (H := Sample.imports) Sample.env 79 "0xA1"
              "55d398326f99059ff775485246999027b3197955" 2 "0xB2" "1.5" "0.01") =
    [SendMethod eth_lock (lockContractHash Sample.bscTestnet)
       (methods_lock "0x55d398326f99059ff775485246999027b3197955" 2 "0xB2"
                     "1500000" "10000000000000000" 0)
       {| send_from := "0xA1"; send_value := "10000000000000000" |}] ∧
  trace (lock (H := Sample.imports) Sample.env 6 "0xA1"
              "55d398326f99059ff775485246999027b3197955" 2 "0xB2" "1.5" "0.01") =
    [SendMethod eth_lock (lockContractHash Sample.bsc)
       (methods_lock "0x55d398326f99059ff775485246999027b3197955" 2 "0xB2"
                     "1500000" "10000" 0)
       {| send_from := "0xA1"; send_value := "10000" |}].
Proof.
  split; [|split].
  - apply (proj1 (lock_fee_precision (H := Sample.imports) Sample.env 79 "0xA1"
                    "55d398326f99059ff775485246999027b3197955" 2 "0xB2" "1.5" "0.01")
             eth_lock (lockContractHash Sample.bscTestnet)
             "0x55d398326f99059ff775485246999027b3197955" 2%Z "0xB2"
             "1500000" "10000000000000000" 0%Z
             {| send_from := "0xA1"; send_value := "10000000000000000" |}).
    apply list_elem_of_here.
  - apply (proj2 (lock_fee_precision (H := Sample.imports) Sample.env 79 "0xA1"
                    "55d398326f99059ff775485246999027b3197955" 2 "0xB2" "1.5" "0.01")
             Sample.client Sample.bscTestnet Sample.usdt "B2" "1500000"
             "10000000000000000"); first [reflexivity | by left].
  - apply (proj2 (lock_fee_precision (H := Sample.imports) Sample.env 6 "0xA1"
                    "55d398326f99059ff775485246999027b3197955" 2 "0xB2" "1.5" "0.01")
             Sample.client Sample.bsc Sample.usdt "B2" "1500000" "10000");
      first [reflexivity | by right].
Defined.

Lemma getBalance_native_witness :
  getBalance (H := Sample.imports) Sample.env 6 "0xA1" nativeTokenHash
    = ([CallGetBalance "0xA1"], Return "2.5").
Proof.
  apply (proj2 (getBalance_native (H := Sample.imports) Sample.env 6 "0xA1")
           Sample.client Sample.bnb "2500000000000000000" "2.5"); reflexivity.
Defined.

Lemma allowance_and_supply_native_witness :
  getAllowance (H := Sample.imports) Sample.env 6 "0xA1" nativeTokenHash "C3"
    = ([], Return None) ∧
  getTotalSupply (H := Sample.imports) Sample.env 6 nativeTokenHash = ([], Return None) ∧
  completion (getAllowance (H := Sample.imports) Sample.env 6 "0xA1" nativeTokenHash "C3")
    ≠ Return (Some "0") ∧
  completion (getTotalSupply (H := Sample.imports) Sample.env 6 nativeTokenHash)
    ≠ Return (Some "0").
Proof.
  apply (allowance_and_supply_native (H := Sample.imports) Sample.env 6 "0xA1" "C3"
           (Some Sample.bnb)).
  reflexivity.
Defined.

Lemma convertWalletError_classifies_witness :
  ∃ code,
    convertWalletError (RawErr "Returned error: insufficient funds for transfer")
      = WalletErr "Returned error: insufficient funds for transfer" code
                  (Some (RawErr "Returned error: insufficient funds for transfer")) ∧
    (contains "Returned error: insufficient funds for transfer" "Rejected by user" →
       code = USER_REJECTED) ∧
    (¬ contains "Returned error: insufficient funds for transfer" "Rejected by user" →
       contains "Returned error: insufficient funds for transfer" "insufficient funds" →
       code = INSUFFICIENT_FUNDS) ∧
    (¬ contains "Returned error: insufficient funds for transfer" "Rejected by user" →
       ¬ contains "Returned error: insufficient funds for transfer" "insufficient funds" →
       code = UNKNOWN_ERROR).
Proof.
  apply (proj1 (proj2 (convertWalletError_classifies
                         (RawErr "Returned error: insufficient funds for transfer")))).
  reflexivity.
Defined.

Lemma getTransactionStatus_receipt_witness :
  (trace (getTransactionStatus (H := Sample.imports) Sample.env "01")
     = [CallGetTransactionReceipt "0x01"] ∧
   completion (getTransactionStatus (H := Sample.imports) Sample.env "01") = Return Done) ∧
  completion (getTransactionStatus (H := Sample.imports) Sample.env "02") = Return Failed ∧
  completion (getTransactionStatus (H := Sample.imports) Sample.env "03") = Return Pending.
Proof.
  split; [split|split].
  - apply (getTransactionStatus_receipt (H := Sample.imports) Sample.env Sample.client "01").
    reflexivity.
  - apply (getTransactionStatus_receipt (H := Sample.imports) Sample.env Sample.client "01"
             eq_refl) with (r := {| status := true |}); reflexivity.
  - apply (getTransactionStatus_receipt (H := Sample.imports) Sample.env Sample.client "02"
             eq_refl) with (r := {| status := false |}); reflexivity.
  - apply (getTransactionStatus_receipt (H := Sample.imports) Sample.env Sample.client "03"
             eq_refl). reflexivity.
Defined.

Lemma getNFTApproved_identity_witness :
  completion (getNFTApproved (H := Sample.imports) Sample.env 6
                "0x3d8F2aDa8e97e4eF19e4ccBf6ec1Ca52900406aA" "42")
    = Return (negb (String.eqb "0xE2BD9DD8FAF5C4C2087AB82EC7E63F619CCAA152"
                               "0xe2bD9dD8FAF5C4C2087Ab82eC7E63F619CcAa152")) ∧
  (completion (getNFTApproved (H := Sample.imports) Sample.env 6
                 "0x3d8F2aDa8e97e4eF19e4ccBf6ec1Ca52900406aA" "42") = Return true
     ↔ "0xE2BD9DD8FAF5C4C2087AB82EC7E63F619CCAA152"
         ≠ "0xe2bD9dD8FAF5C4C2087Ab82eC7E63F619CcAa152").
Proof.
  apply (getNFTApproved_identity (H := Sample.imports) Sample.env 6
           "0x3d8F2aDa8e97e4eF19e4ccBf6ec1Ca52900406aA" "42"
           Sample.client Sample.bsc "42"
           "0xE2BD9DD8FAF5C4C2087AB82EC7E63F619CCAA152"); reflexivity.
Defined.

Example getNFTApproved_case_matters :
  completion (getNFTApproved (H := Sample.imports) Sample.env 6
                "0x3d8F2aDa8e97e4eF19e4ccBf6ec1Ca52900406aA" "42") = Return true.
Proof. reflexivity. Qed.

Lemma provider_events_frame_witness :
  dispatched (onAccountsChanged (H := Sample.imports) Sample.env
                ["0x2f7ac9436ba4b548f9582af91ca1ef02cd2f1f03"]) =
    [{| upd_name := Binance; upd_installed := None;
        upd_address := Some (Some "0x2f7ac9436ba4b548f9582af91ca1ef02cd2f1f03");
        upd_addressHex := Some (Some "2f7ac9436ba4b548f9582af91ca1ef02cd2f1f03");
        upd_connected := Some true;
        upd_chainId := None |}].
Proof.
  apply (proj1 (proj2 (proj2
           (provider_events_frame (H := Sample.imports) Sample.env
              {| installed := true; connected := false; address := None;
                 addressHex := None; chainId := Some 6%Z |})))
           "0x2f7ac9436ba4b548f9582af91ca1ef02cd2f1f03" [] Sample.client
           "0x2f7ac9436ba4b548f9582af91ca1ef02cd2f1f03"); [discriminate | reflexivity..].
Defined.

Example accountsChanged_empty_keeps_chain :
  publish {| installed := true; connected := true;
             address := Some "0x2f7ac9436ba4b548f9582af91ca1ef02cd2f1f03";
             addressHex := Some "2f7ac9436ba4b548f9582af91ca1ef02cd2f1f03";
             chainId := Some 6%Z |}
          (onAccountsChanged (H := Sample.imports) Sample.env []) =
  {| installed := true; connected := false; address := None; addressHex := None;
     chainId := Some 6%Z |}.
Proof. reflexivity. Qed.

Example chainChanged_unknown_network :
  publish {| installed := true; connected := true;
             address := Some "0x2f7ac9436ba4b548f9582af91ca1ef02cd2f1f03";
             addressHex := Some "2f7ac9436ba4b548f9582af91ca1ef02cd2f1f03";
             chainId := Some 6%Z |}
          (onChainChanged (H := Sample.imports) "0x1") =
  {| installed := true; connected := true;
     address := Some "0x2f7ac9436ba4b548f9582af91ca1ef02cd2f1f03";
     addressHex := Some "2f7ac9436ba4b548f9582af91ca1ef02cd2f1f03";
     chainId := None |}.
Proof. reflexivity. Qed.

(** * Further properties of the adapter *)

(** ** Provider failures are classified *)

Lemma tryConvert_completion {A} (m : M A) :
  completion (tryConvert m) =
  match completion m with
  | Throw e => Throw (convertWalletError e)
  | r => r
  end.
Proof. by destruct m as [t [a| e |]]. Qed.

Lemma awaitConfirmLater_hash (pre post : list Signal) (h : string) :
  Forall (fun s => isConfirmation s = true) pre →
  awaitConfirmLater (pre ++ SigTransactionHash h :: post) = Return h.
Proof.
  intros Hpre. rewrite awaitConfirmLater_promiseAfter, promiseAfter_step, foldl_app.
  rewrite (step_confirmations _ pre) by done. simpl. by rewrite step_settled.
Qed.

Lemma awaitConfirmLater_error (pre post : list Signal) (e : JsError) :
  Forall (fun s => isConfirmation s = true) pre →
  awaitConfirmLater (pre ++ SigError e :: post) = Throw e.
Proof.
  intros Hpre. rewrite awaitConfirmLater_promiseAfter, promiseAfter_step, foldl_app.
  rewrite (step_confirmations _ pre) by done. simpl. by rewrite step_settled.
Qed.

Lemma awaitConfirmLater_confirmations (sigs : list Signal) :
  Forall (fun s => isConfirmation s = true) sigs → awaitConfirmLater sigs = Hang.
Proof.
  intros Hs. rewrite awaitConfirmLater_promiseAfter, promiseAfter_step.
  by rewrite step_confirmations.
Qed.

Section Failures.
Context `{Imports}.

(** X1: a provider failure reaches the caller of a query function in
    classified form.  When the request of [getTransactionStatus],
    [getBalance], [getAllowance], [getTotalSupply] or [getNFTApproved]
    is rejected with an error of message [m], the function has made that
    one request and throws the [WalletError] with message [m], the code
    that [m] classifies to, and the rejection as cause. *)
Theorem provider_failures_are_classified (env : Env) (w : Web3) (m : string) :
  web3 env = Some w →
  (∀ hash,
     eth_getTransactionReceipt w ("0x" +:+ hash) = Throw (RawErr m) →
     getTransactionStatus env hash
       = ([CallGetTransactionReceipt ("0x" +:+ hash)],
          Throw (WalletErr m (classifyMessage m) (Some (RawErr m))))) ∧
  (∀ chainId address tb,
     getTokenBasicByChainIdAndTokenHash (store env) chainId nativeTokenHash = Return tb →
     eth_getBalance w address = Throw (RawErr m) →
     getBalance env chainId address nativeTokenHash
       = ([CallGetBalance address],
          Throw (WalletErr m (classifyMessage m) (Some (RawErr m))))) ∧
  (∀ chainId address tokenHash spender tb,
     tokenHash ≠ nativeTokenHash →
     getTokenBasicByChainIdAndTokenHash (store env) chainId tokenHash = Return tb →
     (methods_call w eth_erc20 tokenHash (methods_balanceOf address) = Throw (RawErr m) →
      getBalance env chainId address tokenHash
        = ([CallMethod eth_erc20 tokenHash (methods_balanceOf address)],
           Throw (WalletErr m (classifyMessage m) (Some (RawErr m))))) ∧
     (methods_call w eth_erc20 tokenHash (methods_allowance address ("0x" +:+ spender))
        = Throw (RawErr m) →
      getAllowance env chainId address tokenHash spender
        = ([CallMethod eth_erc20 tokenHash (methods_allowance address ("0x" +:+ spender))],
           Throw (WalletErr m (classifyMessage m) (Some (RawErr m))))) ∧
     (methods_call w eth_erc20 tokenHash methods_totalSupply = Throw (RawErr m) →
      getTotalSupply env chainId tokenHash
        = ([CallMethod eth_erc20 tokenHash methods_totalSupply],
           Throw (WalletErr m (classifyMessage m) (Some (RawErr m)))))) ∧
  (∀ fromChainId tokenHash id ch tokenID,
     getChain (store env) fromChainId = Return ch →
     decimalToInteger id 0 = Return tokenID →
     methods_call w eth_erc721 tokenHash (methods_getApproved tokenID) = Throw (RawErr m) →
     getNFTApproved env fromChainId tokenHash id
       = ([CallMethod eth_erc721 tokenHash (methods_getApproved tokenID)],
          Throw (WalletErr m (classifyMessage m) (Some (RawErr m))))).
Proof.
  intros Hw. split; [|split; [|split]].
  - intros hash Hr. unfold getTransactionStatus. run. rewrite Hw. simpl. by rewrite Hr.
  - intros chainId address tb Htb Hr. unfold getBalance. run. rewrite Htb. simpl.
    rewrite Hw. simpl. by rewrite Hr.
  - intros chainId address tokenHash spender tb Hne Htb. apply String.eqb_neq in Hne.
    unfold getBalance, getAllowance, getTotalSupply. rewrite Hne. run.
    rewrite Htb. simpl. rewrite Hw. simpl.
    repeat split; intros Hr; by rewrite Hr.
  - intros fromChainId tokenHash id ch tokenID Hch Hid Hr. unfold getNFTApproved. run.
    rewrite Hch. simpl. rewrite Hid. simpl. rewrite Hw. simpl. by rewrite Hr.
Qed.

End Failures.

(** ** What [lock] does with the submission *)

Section LockOutcome.
Context `{Imports}.
Variables (env : Env) (fromChainId : Z) (fromAddress fromTokenHash : string).
Variables (toChainId : Z) (toAddress amount fee : string).
Variables (w : Web3) (ch : Chain) (tb : TokenBasic) (toAddressHex amountInt feeInt : string).

Abbreviation signals :=
  (lockSignals w ch fromAddress fromTokenHash toChainId toAddressHex amountInt feeInt).


Hypothesis Hweb3 : web3 env = Some w.
Hypothesis Hchain : getChain (store env) fromChainId = Return (Some ch).
Hypothesis Htoken :
  getTokenBasicByChainIdAndTokenHash (store env) fromChainId fromTokenHash = Return (Some tb).
Hypothesis Hhex : chainApi_addressToHex toChainId toAddress = Return toAddressHex.
Hypothesis Hamount : decimalToInteger amount (decimals tb) = Return amountInt.
Hypothesis Hfee :
  decimalToInteger fee (if truthy (nftFeeName ch) then 18 else decimals tb) = Return feeInt.

Lemma lock_completion :
  completion (lock env fromChainId fromAddress fromTokenHash toChainId toAddress amount fee) =
  match awaitConfirmLater signals with
  | Return h =>
      match toStandardHex h with
      | Throw e => Throw (convertWalletError e)
      | r => r
      end
  | Throw e => Throw (convertWalletError e)
  | Hang => Hang
  end.
Proof.
  unfold lock, lockSignals, lockMethod, lockOptions. rewrite tryConvert_completion. run.
  rewrite Hchain, Htoken, Hweb3. simpl. rewrite Hhex, Hamount. simpl. rewrite Hfee. simpl.
  by destruct (awaitConfirmLater _) as [h| |].
Qed.

(** X2: [lock] returns as soon as the submission has a hash, with the
    hash in standard form: confirmations may come first and anything may
    follow, an error included. *)
Theorem lock_returns_standard_hash (pre post : list Signal) (h hex : string) :
  Forall (fun s => isConfirmation s = true) pre →
  signals = pre ++ SigTransactionHash h :: post →
  toStandardHex h = Return hex →
  completion (lock env fromChainId fromAddress fromTokenHash toChainId toAddress amount fee)
    = Return hex.
Proof.
  intros Hpre Hs Hh. rewrite lock_completion, Hs, awaitConfirmLater_hash by done.
  by rewrite Hh.
Qed.

(** X3: when the submission fails before it has a hash, [lock] throws the
    classified form of that error: a message with "Rejected by user"
    gives [USER_REJECTED], and the provider's error is kept as cause. *)
Theorem lock_rejects_classified (pre post : list Signal) (m : string) :
  Forall (fun s => isConfirmation s = true) pre →
  signals = pre ++ SigError (RawErr m) :: post →
  completion (lock env fromChainId fromAddress fromTokenHash toChainId toAddress amount fee)
    = Throw (WalletErr m (classifyMessage m) (Some (RawErr m))) ∧
  (contains m "Rejected by user" →
   completion (lock env fromChainId fromAddress fromTokenHash toChainId toAddress amount fee)
     = Throw (WalletErr m USER_REJECTED (Some (RawErr m)))).
Proof.
  intros Hpre Hs.
  assert (completion (lock env fromChainId fromAddress fromTokenHash toChainId toAddress
                        amount fee)
          = Throw (WalletErr m (classifyMessage m) (Some (RawErr m)))) as Hres.
  { by rewrite lock_completion, Hs, awaitConfirmLater_error. }
  split; [done|]. intros Hc. by rewrite Hres, classifyMessage_rejected.
Qed.

(** X4: when the submission emits neither a hash nor an error (only
    confirmations, or nothing), [lock] never completes: it neither
    returns nor throws. *)
Theorem lock_hangs_without_hash :
  Forall (fun s => isConfirmation s = true) signals →
  completion (lock env fromChainId fromAddress fromTokenHash toChainId toAddress amount fee)
    = Hang.
Proof.
  intros Hs. by rewrite lock_completion, awaitConfirmLater_confirmations.
Qed.

End LockOutcome.

(** ** Missing registry entries and a missing client *)

Lemma Forall_trace_bind {A B} (P : Call → Prop) (m : M A) (f : A → M B) :
  Forall P (trace m) → (∀ a, Forall P (trace (f a))) → Forall P (trace (m ≫= f)).
Proof.
  intros Hm Hf. destruct m as [t [a| |]]; unfold mbind, M_bind, bind, trace; simpl; try done.
  specialize (Hf a). destruct (f a) as [t' r]. simpl. apply Forall_app. by split.
Qed.

Section Edges.
Context `{Imports}.

Lemma Forall_trace_deref {A} (P : Call → Prop) (v : option A) (p : string) :
  Forall P (trace (deref v p)).
Proof. destruct v; constructor. Qed.

(** X5: when the chain registry or the token registry has no entry for
    the source, [lock] submits nothing and throws the classified
    [TypeError] of the failed property read. *)
Theorem lock_missing_entry_submits_nothing (env : Env) (fromChainId : Z)
    (fromAddress fromTokenHash : string) (toChainId : Z) (toAddress amount fee : string)
    (w : Web3) :
  web3 env = Some w →
  (∀ tb, getChain (store env) fromChainId = Return None →
     getTokenBasicByChainIdAndTokenHash (store env) fromChainId fromTokenHash = Return tb →
     lock env fromChainId fromAddress fromTokenHash toChainId toAddress amount fee
       = ([], Throw (convertWalletError (TypeError "lockContractHash")))) ∧
  (∀ ch hex, getChain (store env) fromChainId = Return (Some ch) →
     getTokenBasicByChainIdAndTokenHash (store env) fromChainId fromTokenHash = Return None →
     chainApi_addressToHex toChainId toAddress = Return hex →
     lock env fromChainId fromAddress fromTokenHash toChainId toAddress amount fee
       = ([], Throw (convertWalletError (TypeError "decimals")))).
Proof.
  intros Hw. split.
  - intros tb Hch Htb. unfold lock. run. rewrite Hch, Htb, Hw. by simpl.
  - intros ch hex Hch Htb Hhex. unfold lock. run. rewrite Hch, Htb, Hw. simpl.
    by rewrite Hhex.
Qed.

(** X6: a conversion that fails stops [lock] before anything is
    submitted: the failure of the amount or of the fee conversion is
    thrown in classified form and the trace is empty. *)
Theorem lock_bad_amount_submits_nothing (env : Env) (fromChainId : Z)
    (fromAddress fromTokenHash : string) (toChainId : Z) (toAddress amount fee : string)
    (w : Web3) (ch : Chain) (tb : TokenBasic) (hex : string) (e : JsError) :
  web3 env = Some w →
  getChain (store env) fromChainId = Return (Some ch) →
  getTokenBasicByChainIdAndTokenHash (store env) fromChainId fromTokenHash
    = Return (Some tb) →
  chainApi_addressToHex toChainId toAddress = Return hex →
  (decimalToInteger amount (decimals tb) = Throw e ∨
   (∃ a, decimalToInteger amount (decimals tb) = Return a) ∧
   decimalToInteger fee (if truthy (nftFeeName ch) then 18 else decimals tb) = Throw e) →
  lock env fromChainId fromAddress fromTokenHash toChainId toAddress amount fee
    = ([], Throw (convertWalletError e)).
Proof.
  intros Hw Hch Htb Hhex Hconv. unfold lock. run. rewrite Hch, Htb, Hw. simpl.
  rewrite Hhex. destruct Hconv as [Ha|[[a Ha] Hf]]; rewrite Ha; simpl; [done|].
  by rewrite Hf.
Qed.

(** X7: the balance of a token other than the native sentinel is read
    with one [balanceOf] call on the token's own ERC-20 contract and
    converted with the registry's decimals; the chain's native balance
    is never read for it. *)
Theorem getBalance_token (env : Env) (chainId : Z) (address tokenHash : string) :
  tokenHash ≠ nativeTokenHash →
  Forall (fun c => ∀ a, c ≠ CallGetBalance a) (trace (getBalance env chainId address tokenHash)) ∧
  (∀ w tb raw v,
     web3 env = Some w →
     getTokenBasicByChainIdAndTokenHash (store env) chainId tokenHash = Return (Some tb) →
     methods_call w eth_erc20 tokenHash (methods_balanceOf address) = Return raw →
     integerToDecimal raw (decimals tb) = Return v →
     getBalance env chainId address tokenHash
       = ([CallMethod eth_erc20 tokenHash (methods_balanceOf address)], Return v)).
Proof.
  intros Hne. apply String.eqb_neq in Hne. unfold getBalance. rewrite Hne. split.
  - rewrite trace_tryConvert.
    apply Forall_trace_bind; [constructor|]. intros tbo.
    apply Forall_trace_bind; [apply Forall_trace_deref|]. intros w.
    apply Forall_trace_bind; [by repeat constructor|]. intros raw.
    apply Forall_trace_bind; [apply Forall_trace_deref|]. intros tb. constructor.
  - intros w tb raw v Hw Htb Hraw Hv. run. rewrite Htb. simpl. rewrite Hw. simpl.
    rewrite Hraw. simpl. by rewrite Hv.
Qed.

(** X8: [getAllowance] and [getTotalSupply] return [null] exactly for
    the native sentinel: whenever they return, the result is [null] if
    and only if the token hash is the sentinel. *)
Theorem null_iff_native (env : Env) (chainId : Z) (address tokenHash spender : string)
    (r : option string) :
  (completion (getAllowance env chainId address tokenHash spender) = Return r →
   (r = None ↔ tokenHash = nativeTokenHash)) ∧
  (completion (getTotalSupply env chainId tokenHash) = Return r →
   (r = None ↔ tokenHash = nativeTokenHash)).
Proof.
  unfold getAllowance, getTotalSupply.
  destruct (String.eqb_spec tokenHash nativeTokenHash) as [Heq|Hne]; run;
    destruct (getTokenBasicByChainIdAndTokenHash _ _ _) as [tbo| |]; simpl;
    unfold completion; simpl; try done.
  - split; intros [= <-]; done.
  - destruct (web3 env) as [w|]; simpl; [|done].
    split.
    + destruct (methods_call w _ _ _) as [raw| |]; simpl; try done.
      destruct tbo as [tb|]; simpl; try done.
      destruct (integerToDecimal raw (decimals tb)); simpl; try done.
      intros [= <-]. done.
    + destruct (methods_call w _ _ _) as [raw| |]; simpl; try done.
      destruct tbo as [tb|]; simpl; try done.
      destruct (integerToDecimal raw (decimals tb)); simpl; try done.
      intros [= <-]. done.
Qed.

End Edges.

(** Walks through a traced computation step by step. *)
Ltac reads :=
  repeat match goal with
  | |- Forall _ (trace (tryConvert _)) => rewrite trace_tryConvert
  | |- Forall _ (trace (_ ≫= _)) => apply Forall_trace_bind; [|intros]
  | |- Forall _ (trace (deref _ _)) => apply Forall_trace_deref
  | |- Forall _ (trace (lift _)) => apply Forall_nil_2
  | |- Forall _ (trace (ret _)) => apply Forall_nil_2
  | |- Forall _ (trace (request _ _)) => by repeat constructor
  | |- Forall _ (trace (if ?b then _ else _)) => destruct b
  | |- Forall _ (trace (match ?x with _ => _ end)) => destruct x
  end.

Section ClientAndRegistry.
Context `{Imports}.

(** X9: a token that the registry does not know costs a provider round
    trip before it fails: the balance, allowance or supply request is
    issued and answered first, and only then is the classified
    [TypeError] of reading [decimals] thrown. *)
Theorem registry_miss_after_round_trip (env : Env) (w : Web3) (chainId : Z)
    (address tokenHash spender raw : string) :
  web3 env = Some w →
  getTokenBasicByChainIdAndTokenHash (store env) chainId tokenHash = Return None →
  (tokenHash = nativeTokenHash →
   eth_getBalance w address = Return raw →
   getBalance env chainId address tokenHash
     = ([CallGetBalance address], Throw (convertWalletError (TypeError "decimals")))) ∧
  (tokenHash ≠ nativeTokenHash →
   (methods_call w eth_erc20 tokenHash (methods_balanceOf address) = Return raw →
    getBalance env chainId address tokenHash
      = ([CallMethod eth_erc20 tokenHash (methods_balanceOf address)],
         Throw (convertWalletError (TypeError "decimals")))) ∧
   (methods_call w eth_erc20 tokenHash (methods_allowance address ("0x" +:+ spender))
      = Return raw →
    getAllowance env chainId address tokenHash spender
      = ([CallMethod eth_erc20 tokenHash (methods_allowance address ("0x" +:+ spender))],
         Throw (convertWalletError (TypeError "decimals")))) ∧
   (methods_call w eth_erc20 tokenHash methods_totalSupply = Return raw →
    getTotalSupply env chainId tokenHash
      = ([CallMethod eth_erc20 tokenHash methods_totalSupply],
         Throw (convertWalletError (TypeError "decimals"))))).
Proof.
  intros Hw Htb. split.
  - intros Heq Hraw. apply String.eqb_eq in Heq.
    unfold getBalance. rewrite Heq. run. rewrite Htb. simpl. rewrite Hw. simpl.
    by rewrite Hraw.
  - intros Hne. apply String.eqb_neq in Hne.
    unfold getBalance, getAllowance, getTotalSupply. rewrite Hne. run.
    rewrite Htb. simpl. rewrite Hw. simpl.
    repeat split; intros Hraw; by rewrite Hraw.
Qed.

(** X10: before [init] has built the client, nothing is asked of the
    provider: the status, balance, approval and lock functions throw the
    classified [TypeError] of reading [eth] with an empty trace (once
    their registry look-ups and the token id conversion have returned). *)
Theorem uninitialised_client_asks_nothing (env : Env) :
  web3 env = None →
  (∀ hash, getTransactionStatus env hash
           = ([], Throw (convertWalletError (TypeError "eth")))) ∧
  (∀ chainId address tokenHash tb,
     getTokenBasicByChainIdAndTokenHash (store env) chainId tokenHash = Return tb →
     getBalance env chainId address tokenHash
       = ([], Throw (convertWalletError (TypeError "eth")))) ∧
  (∀ fromChainId tokenHash id ch tokenID,
     getChain (store env) fromChainId = Return ch →
     decimalToInteger id 0 = Return tokenID →
     getNFTApproved env fromChainId tokenHash id
       = ([], Throw (convertWalletError (TypeError "eth")))) ∧
  (∀ fromChainId fromAddress fromTokenHash toChainId toAddress amount fee ch tb,
     getChain (store env) fromChainId = Return ch →
     getTokenBasicByChainIdAndTokenHash (store env) fromChainId fromTokenHash = Return tb →
     lock env fromChainId fromAddress fromTokenHash toChainId toAddress amount fee
       = ([], Throw (convertWalletError (TypeError "eth")))).
Proof.
  intros Hw. repeat split.
  - intros hash. unfold getTransactionStatus. run. by rewrite Hw.
  - intros chainId address tokenHash tb Htb. unfold getBalance. run. rewrite Htb. simpl.
    destruct (String.eqb tokenHash nativeTokenHash); by rewrite Hw.
  - intros fromChainId tokenHash id ch tokenID Hch Hid. unfold getNFTApproved. run.
    rewrite Hch. simpl. rewrite Hid. simpl. by rewrite Hw.
  - intros fromChainId fromAddress fromTokenHash toChainId toAddress amount fee ch tb Hch Htb.
    unfold lock. run. rewrite Hch, Htb. simpl. by rewrite Hw.
Qed.

(** X11: the five query functions only read: whatever they ask of the
    outside world is a balance read, a receipt query, a contract call or
    a console line, never a transaction and never a store dispatch. *)
Theorem queries_only_read (env : Env) :
  (∀ chainId address tokenHash,
     Forall (fun c => isRead c = true) (trace (getBalance env chainId address tokenHash))) ∧
  (∀ chainId address tokenHash spender,
     Forall (fun c => isRead c = true)
            (trace (getAllowance env chainId address tokenHash spender))) ∧
  (∀ chainId tokenHash,
     Forall (fun c => isRead c = true) (trace (getTotalSupply env chainId tokenHash))) ∧
  (∀ hash, Forall (fun c => isRead c = true) (trace (getTransactionStatus env hash))) ∧
  (∀ fromChainId tokenHash id,
     Forall (fun c => isRead c = true) (trace (getNFTApproved env fromChainId tokenHash id))).
Proof.
  repeat split; intros;
    unfold getBalance, getAllowance, getTotalSupply, getTransactionStatus, getNFTApproved;
    reads.
Qed.

End ClientAndRegistry.

(** ** Provider events *)

Section Events.
Context `{Imports}.

(** X12: a [chainChanged] event publishes the Bsc chain id exactly when
    [Number(network)] is the network id of the build target (56 on
    mainnet, 97 otherwise); every other network, and a network that is
    not a number, publishes an absent chain id. *)
Theorem chainChanged_maps_target_network (st : ConnectionState) (network : string) :
  (Number network = Some (if TARGET_MAINNET then 56 else 97)%Z →
   chainId (publish st (onChainChanged network)) = Some ChainId_Bsc) ∧
  (Number network ≠ Some (if TARGET_MAINNET then 56 else 97)%Z →
   chainId (publish st (onChainChanged network)) = None).
Proof.
  unfold publish, dispatched, onChainChanged, NETWORK_CHAIN_ID_MAPS. simpl. split.
  - intros ->. by rewrite Z.eqb_refl.
  - intros Hne. destruct (Number network) as [n|]; [|done].
    destruct (Z.eqb_spec n (if TARGET_MAINNET then 56 else 97)%Z) as [->|]; done.
Qed.

(** X13: every update that an [accountsChanged] event dispatches has
    [connected] equal to the truthiness of its [address], so after such
    an update the store has [connected] true exactly when it holds a
    non-empty address. *)
Theorem accountsChanged_connected_iff_address (env : Env) (accounts : list string)
    (st : ConnectionState) :
  Forall (fun u => ∃ a, upd_address u = Some a ∧ upd_connected u = Some (truthy a))
         (dispatched (onAccountsChanged env accounts)) ∧
  (dispatched (onAccountsChanged env accounts) ≠ [] →
   connected (publish st (onAccountsChanged env accounts))
     = truthy (address (publish st (onAccountsChanged env accounts)))).
Proof.
  unfold publish, dispatched, onAccountsChanged. run.
  destruct (firstAccount accounts) as [a|]; simpl.
  - destruct (web3 env) as [w|]; simpl; [|by split].
    destruct (utils_toChecksumAddress w a) as [s| |]; simpl; [|by split..].
    split; [|done]. repeat constructor. by eexists.
  - split; [|done]. repeat constructor. by eexists.
Qed.

(** X14: when the client cannot turn the first account into a checksum
    address, the [accountsChanged] handler dispatches nothing, so the
    store keeps its state, and the error leaves the handler as it is,
    without classification. *)
Theorem accountsChanged_checksum_failure (env : Env) (w : Web3) (a : string)
    (rest : list string) (e : JsError) (st : ConnectionState) :
  a ≠ "" →
  web3 env = Some w →
  utils_toChecksumAddress w a = Throw e →
  onAccountsChanged env (a :: rest) = ([], Throw e) ∧
  publish st (onAccountsChanged env (a :: rest)) = st.
Proof.
  intros Ha Hw He. apply String.eqb_neq in Ha.
  unfold publish, dispatched, onAccountsChanged. run. rewrite Ha. simpl.
  rewrite Hw. simpl. by rewrite He.
Qed.

End Events.

(** ** The connection life cycle *)

(** Unfolds the steps of a life cycle function. *)
Ltac runL :=
  unfold init, connect, queryState, providerRequest, logRequest, derefL, readWeb3, dispatchL,
    liftL, setSession, setWeb3, getSession, onProvider, finallyResolve, tryConvertL,
    mbind, L_bind, mret, L_ret in *; simpl in *.

Section LifecycleTheorems.
Context `{Imports}.

(** X15: [queryState] publishes all or nothing.  When it returns it has
    dispatched exactly one update, which carries [address],
    [addressHex], [connected] and [chainId], with [connected] the
    truthiness of [address]; when it does not return (a request or the
    checksum fails or never answers) it has dispatched nothing. *)
Theorem queryState_dispatches_iff_returns (bc : option Provider) (pg : Page) :
  ((queryState bc pg).2 = Return tt →
   ∃ a h n,
     page_dispatched (queryState bc pg).1 =
       page_dispatched pg ++
       [{| upd_name := Binance; upd_installed := None; upd_address := Some a;
           upd_addressHex := Some h; upd_connected := Some (truthy a);
           upd_chainId := Some n |}]) ∧
  ((queryState bc pg).2 ≠ Return tt →
   page_dispatched (queryState bc pg).1 = page_dispatched pg).
Proof.
  runL. destruct bc as [p|]; simpl; [|by split].
  destruct (request_eth_accounts p) as [accounts| |]; simpl; [|by split|by split].
  destruct (firstAccount accounts) as [a|]; simpl.
  - destruct (page_web3 pg) as [w|]; simpl; [|by split].
    destruct (utils_toChecksumAddress w a) as [s| |]; simpl; [|by split|by split].
    destruct (request_eth_chainId p) as [n| |]; simpl; [|by split|by split].
    split; [|done]. intros _.
    by exists (Some s), (tryToConvertAddressToHex (Some a)), (NETWORK_CHAIN_ID_MAPS (Number n)).
  - destruct (request_eth_chainId p) as [n| |]; simpl; [|by split|by split].
    split; [|done]. intros _.
    by exists None, (tryToConvertAddressToHex None), (NETWORK_CHAIN_ID_MAPS (Number n)).
Qed.

(** X16: whenever [init] completes, by returning or by throwing, with or
    without a provider, it has resolved the wallet's [deferred] exactly
    once. *)
Theorem init_resolves_deferred_once (bc : option Provider) (pg : Page) :
  (init bc pg).2 ≠ Hang →
  page_deferred (init bc pg).1 = S (page_deferred pg).
Proof.
  runL. destruct bc as [p|]; simpl; [|done].
  destruct (decide (page_session pg = Some "true")) as [Hs|Hs]; simpl; [|done].
  destruct (request_eth_accounts p) as [accounts| |]; simpl; [|done..].
  destruct (firstAccount accounts) as [a|]; simpl.
  - destruct (utils_toChecksumAddress (provider_client p) a) as [s| |]; simpl; [|done..].
    by destruct (request_eth_chainId p) as [n| |].
  - by destruct (request_eth_chainId p) as [n| |].
Qed.

(** X17: with a provider, [init] always builds the client, and it
    registers the [accountsChanged] and [chainChanged] listeners exactly
    when it returns: when restoring the session fails, no listener is
    registered, and the provider's error leaves [init] unclassified. *)
Theorem init_listeners_iff_returns (p : Provider) (pg : Page) :
  page_web3 (init (Some p) pg).1 = Some (provider_client p) ∧
  ((init (Some p) pg).2 = Return tt →
   page_listeners (init (Some p) pg).1
     = page_listeners pg ++ [accountsChanged; chainChanged]) ∧
  ((init (Some p) pg).2 ≠ Return tt →
   page_listeners (init (Some p) pg).1 = page_listeners pg) ∧
  (∀ e, request_eth_accounts p = Throw e → page_session pg = Some "true" →
     (init (Some p) pg).2 = Throw e).
Proof.
  runL.
  destruct (decide (page_session pg = Some "true")) as [Hs|Hs]; simpl.
  2:{ repeat split; try done. by rewrite <- app_assoc. }
  destruct (request_eth_accounts p) as [accounts| |]; simpl;
    [|repeat split; try done; congruence..].
  destruct (firstAccount accounts) as [a|]; simpl.
  - destruct (utils_toChecksumAddress (provider_client p) a) as [s| |]; simpl;
      [|by repeat split..].
    destruct (request_eth_chainId p) as [n| |]; simpl; [|by repeat split..].
    repeat split; try done. by rewrite <- app_assoc.
  - destruct (request_eth_chainId p) as [n| |]; simpl; [|by repeat split..].
    repeat split; try done. by rewrite <- app_assoc.
Qed.

(** X18: unless the session flag is the string "true", [init] asks
    nothing of the provider: it returns, having dispatched only the
    [installed] update when there is a provider and nothing when there is
    none. *)
Theorem init_without_flag_asks_nothing (bc : option Provider) (pg : Page) :
  page_session pg ≠ Some "true" →
  page_requests (init bc pg).1 = page_requests pg ∧
  (init bc pg).2 = Return tt ∧
  page_dispatched (init bc pg).1 =
    page_dispatched pg ++
    match bc with
    | Some _ => [{| upd_name := Binance; upd_installed := Some true; upd_address := None;
                    upd_addressHex := None; upd_connected := None; upd_chainId := None |}]
    | None => []
    end.
Proof.
  intros Hs. runL. destruct bc as [p|]; simpl; [|by rewrite app_nil_r].
  by destruct (decide (page_session pg = Some "true")).
Qed.

(** X19: [connect] sets the session flag to "true" exactly when it
    returns; when it does not return, the flag is as it was before. *)
Theorem connect_sets_flag_iff_returns (bc : option Provider) (pg : Page) :
  ((connect bc pg).2 = Return tt → page_session (connect bc pg).1 = Some "true") ∧
  ((connect bc pg).2 ≠ Return tt → page_session (connect bc pg).1 = page_session pg).
Proof.
  runL. destruct bc as [p|]; simpl; [|by split].
  destruct (request_eth_requestAccounts p) as [granted| e0 |]; simpl; [|by split|by split].
  destruct (request_eth_accounts p) as [accounts| e0 |]; simpl; [|by split|by split].
  destruct (firstAccount accounts) as [a|]; simpl.
  - destruct (page_web3 pg) as [w|]; simpl; [|by split].
    destruct (utils_toChecksumAddress w a) as [s| e0 |]; simpl; [|by split|by split].
    by destruct (request_eth_chainId p) as [n| e0 |].
  - by destruct (request_eth_chainId p) as [n| e0 |].
Qed.

(** X20: when the user declines the account request, [connect] throws a
    [USER_REJECTED] error that keeps the provider's error as cause; it
    has asked the provider only for the accounts, dispatched nothing and
    left the session flag alone. *)
Theorem connect_rejected_by_user (p : Provider) (pg : Page) (m : string) :
  request_eth_requestAccounts p = Throw (RawErr m) →
  contains m "Rejected by user" →
  (connect (Some p) pg).2 = Throw (WalletErr m USER_REJECTED (Some (RawErr m))) ∧
  page_dispatched (connect (Some p) pg).1 = page_dispatched pg ∧
  page_session (connect (Some p) pg).1 = page_session pg ∧
  page_requests (connect (Some p) pg).1 = page_requests pg ++ [eth_requestAccounts].
Proof.
  intros Hr Hc. runL. rewrite Hr. simpl. repeat split.
  unfold convertWalletError. simpl. by rewrite classifyMessage_rejected.
Qed.

End LifecycleTheorems.

(** ** The other transactions *)

Lemma sent_bind {A B} (m : T A) (f : A → T B) (tx : Tx) :
  tx ∈ sent (m ≫= f) →
  tx ∈ sent m ∨ ∃ a, outcome m = Return a ∧ tx ∈ sent (f a).
Proof.
  destruct m as [t [a| |]]; unfold mbind, T_bind, sent, outcome; simpl; auto.
  destruct (f a) as [t' r] eqn:Hf. simpl. rewrite elem_of_app.
  intros [Hc|Hc]; [by left | right]. exists a. by rewrite Hf.
Qed.

Lemma sent_tryConvertT {A} (m : T A) : sent (tryConvertT m) = sent m.
Proof. by destruct m as [t [a| |]]. Qed.

Lemma outcome_tryConvertT {A} (m : T A) :
  outcome (tryConvertT m) =
  match outcome m with
  | Throw e => Throw (convertWalletError e)
  | r => r
  end.
Proof. by destruct m as [t [a| e |]]. Qed.

Lemma sent_liftT {A} (r : Completion A) (tx : Tx) : tx ∈ sent (liftT r) → False.
Proof. unfold liftT, sent. simpl. apply not_elem_of_nil. Qed.

Lemma sent_sendT {A} (tx' : Tx) (r : Completion A) (tx : Tx) :
  tx ∈ sent (sendT tx' r) → tx = tx'.
Proof. unfold sendT, sent. simpl. by rewrite list_elem_of_singleton. Qed.

(** Unfolds the steps of a transaction function. *)
Ltac runT :=
  unfold mbind, T_bind, mret, T_ret, liftT, sendT, derefT, tryConvertT, sent, outcome;
  simpl.

Section TransactionTheorems.
Context `{Imports}.

Lemma sent_derefT {A} (v : option A) (p : string) (tx : Tx) :
  tx ∈ sent (derefT v p) → False.
Proof. destruct v; simpl; apply not_elem_of_nil. Qed.

Lemma outcome_derefT {A} (v : option A) (p : string) (a : A) :
  outcome (derefT v p) = Return a → v = Some a.
Proof. destruct v; simpl; [by intros [= ->] | done]. Qed.

(** X21: every transaction that [nftLock] submits goes to the chain's
    NFT lock contract, carries the token id converted with 0 decimals,
    names the zero address as fee token, and has as fee argument and as
    native value the fee converted with 18 decimals, whatever the chain's
    [nftFeeName] and without a look-up in the token registry. *)
Theorem nftLock_transaction (client : option TxClient) (st : Store) (fromChainId : Z)
    (fromAddress fromTokenHash : string) (toChainId : Z) (toAddress id fee : string)
    (tx : Tx) :
  tx ∈ sent (nftLock client st fromChainId fromAddress fromTokenHash toChainId toAddress
               id fee) →
  ∃ ch toAddressHex tokenID feeInt,
    getChain st fromChainId = Return (Some ch) ∧
    chainApi_addressToHex toChainId toAddress = Return toAddressHex ∧
    decimalToInteger id 0 = Return tokenID ∧
    decimalToInteger fee 18 = Return feeInt ∧
    tx = {| tx_abi := eth_nft_lock; tx_contract := nftLockContractHash ch;
            tx_method := tx_nft_lock ("0x" +:+ fromTokenHash) toChainId
                           ("0x" +:+ toAddressHex) tokenID
                           "0x0000000000000000000000000000000000000000" feeInt 0;
            tx_options := {| tx_from := fromAddress; tx_value := Some feeInt |} |}.
Proof.
  unfold nftLock. rewrite sent_tryConvertT. intros Hc.
  apply sent_bind in Hc as [Hc|(chain & Hchain & Hc)]; [by apply sent_liftT in Hc|].
  apply sent_bind in Hc as [Hc|(w & Hw & Hc)]; [by apply sent_derefT in Hc|].
  apply sent_bind in Hc as [Hc|(ch & Hch & Hc)]; [by apply sent_derefT in Hc|].
  apply sent_bind in Hc as [Hc|(hex & Hhex & Hc)]; [by apply sent_liftT in Hc|].
  apply sent_bind in Hc as [Hc|(tokenID & Hid & Hc)]; [by apply sent_liftT in Hc|].
  apply sent_bind in Hc as [Hc|(feeInt & Hf & Hc)]; [by apply sent_liftT in Hc|].
  apply sent_bind in Hc as [Hc|(res & _ & Hc)]; [|by apply sent_liftT in Hc].
  apply sent_sendT in Hc. apply outcome_derefT in Hch. subst chain.
  by exists ch, hex, tokenID, feeInt.
Qed.

(** X22: every transaction that [approve] submits is an [approve] call
    on the token's own ERC-20 contract, from the owner, without native
    value, for the spender prefixed with [0x] and the amount converted
    with the registry's decimals; a token the registry does not know is
    never approved. *)
Theorem approve_transaction (client : option TxClient) (st : Store) (chainId : Z)
    (address tokenHash spender amount : string) (tx : Tx) :
  tx ∈ sent (approve client st chainId address tokenHash spender amount) →
  ∃ tb amountInt,
    getTokenBasicByChainIdAndTokenHash st chainId tokenHash = Return (Some tb) ∧
    decimalToInteger amount (decimals tb) = Return amountInt ∧
    tx = {| tx_abi := eth_erc20; tx_contract := tokenHash;
            tx_method := tx_approve ("0x" +:+ spender) amountInt;
            tx_options := {| tx_from := address; tx_value := None |} |}.
Proof.
  unfold approve. rewrite sent_tryConvertT. intros Hc.
  apply sent_bind in Hc as [Hc|(tokenBasic & Htb & Hc)]; [by apply sent_liftT in Hc|].
  apply sent_bind in Hc as [Hc|(tb & Htb' & Hc)]; [by apply sent_derefT in Hc|].
  apply sent_bind in Hc as [Hc|(amountInt & Ha & Hc)]; [by apply sent_liftT in Hc|].
  apply sent_bind in Hc as [Hc|(w & Hw & Hc)]; [by apply sent_derefT in Hc|].
  apply sent_sendT in Hc. apply outcome_derefT in Htb'. subst tokenBasic.
  by exists tb, amountInt.
Qed.

(** X23: every transaction that [nftApprove] submits is an [approve]
    call on the token's ERC-721 contract for the token id converted with
    0 decimals, and names the spender exactly as it was given: unlike
    [approve], no [0x] is put in front of it. *)
Theorem nftApprove_transaction (client : option TxClient)
    (address tokenHash spender id : string) (tx : Tx) :
  tx ∈ sent (nftApprove client address tokenHash spender id) →
  ∃ tokenID,
    decimalToInteger id 0 = Return tokenID ∧
    tx = {| tx_abi := eth_erc721; tx_contract := tokenHash;
            tx_method := tx_approve spender tokenID;
            tx_options := {| tx_from := address; tx_value := None |} |}.
Proof.
  unfold nftApprove. rewrite sent_tryConvertT. intros Hc.
  apply sent_bind in Hc as [Hc|(tokenID & Hid & Hc)]; [by apply sent_liftT in Hc|].
  apply sent_bind in Hc as [Hc|(w & Hw & Hc)]; [by apply sent_derefT in Hc|].
  apply sent_sendT in Hc. by exists tokenID.
Qed.

(** X24: [approve] and [getAllowance] agree on whom they talk about:
    for the same token, owner and spender, the allowance that
    [getAllowance] asks for is the one that [approve] sets, on the same
    contract, for the same owner and the same [0x]-prefixed spender. *)
Theorem approve_then_allowance (env : Env) (client : option TxClient) (chainId : Z)
    (address tokenHash spender amount : string) (tx : Tx)
    (abi : Abi) (contract owner asked : string) :
  tx ∈ sent (approve client (store env) chainId address tokenHash spender amount) →
  CallMethod abi contract (methods_allowance owner asked)
    ∈ trace (getAllowance env chainId address tokenHash spender) →
  tx_abi tx = abi ∧ tx_contract tx = contract ∧ tx_from (tx_options tx) = owner ∧
  ∃ amountInt, tx_method tx = tx_approve asked amountInt.
Proof.
  unfold approve, getAllowance. rewrite sent_tryConvertT, trace_tryConvert. intros Htx Hc.
  apply sent_bind in Htx as [Htx|(tokenBasic & _ & Htx)]; [by apply sent_liftT in Htx|].
  apply sent_bind in Htx as [Htx|(tb & _ & Htx)]; [by apply sent_derefT in Htx|].
  apply sent_bind in Htx as [Htx|(amountInt & _ & Htx)]; [by apply sent_liftT in Htx|].
  apply sent_bind in Htx as [Htx|(w & _ & Htx)]; [by apply sent_derefT in Htx|].
  apply sent_sendT in Htx. subst tx. simpl.
  apply trace_bind in Hc as [Hc|(tokenBasic' & _ & Hc)]; [by apply trace_lift in Hc|].
  destruct (String.eqb tokenHash nativeTokenHash).
  { by apply not_elem_of_nil in Hc. }
  apply trace_bind in Hc as [Hc|(w' & _ & Hc)]; [by apply trace_deref in Hc|].
  apply trace_bind in Hc as [Hc|(raw & _ & Hc)].
  - apply trace_request in Hc. injection Hc as -> -> -> ->. eauto.
  - apply trace_bind in Hc as [Hc|(tb' & _ & Hc)]; [by apply trace_deref in Hc|].
    apply trace_bind in Hc as [Hc|(r & _ & Hc)]; [by apply trace_lift in Hc|].
    by apply not_elem_of_nil in Hc.
Qed.

(** X25: [nftLock] returns the standard form of the hash as soon as the
    submission has one, and throws the classified error when the
    submission fails first; confirmations before either change nothing. *)
Theorem nftLock_outcome (w : TxClient) (st : Store) (fromChainId : Z)
    (fromAddress fromTokenHash : string) (toChainId : Z) (toAddress id fee : string)
    (ch : Chain) (toAddressHex tokenID feeInt : string) (pre post : list Signal) :
  getChain st fromChainId = Return (Some ch) →
  chainApi_addressToHex toChainId toAddress = Return toAddressHex →
  decimalToInteger id 0 = Return tokenID →
  decimalToInteger fee 18 = Return feeInt →
  Forall (fun s => isConfirmation s = true) pre →
  (∀ h hex,
     tx_signals w {| tx_abi := eth_nft_lock; tx_contract := nftLockContractHash ch;
                     tx_method := tx_nft_lock ("0x" +:+ fromTokenHash) toChainId
                                    ("0x" +:+ toAddressHex) tokenID NFT_FEE_TOKEN_HASH
                                    feeInt 0;
                     tx_options := {| tx_from := fromAddress; tx_value := Some feeInt |} |}
       = pre ++ SigTransactionHash h :: post →
     toStandardHex h = Return hex →
     outcome (nftLock (Some w) st fromChainId fromAddress fromTokenHash toChainId toAddress
                id fee) = Return hex) ∧
  (∀ e,
     tx_signals w {| tx_abi := eth_nft_lock; tx_contract := nftLockContractHash ch;
                     tx_method := tx_nft_lock ("0x" +:+ fromTokenHash) toChainId
                                    ("0x" +:+ toAddressHex) tokenID NFT_FEE_TOKEN_HASH
                                    feeInt 0;
                     tx_options := {| tx_from := fromAddress; tx_value := Some feeInt |} |}
       = pre ++ SigError e :: post →
     outcome (nftLock (Some w) st fromChainId fromAddress fromTokenHash toChainId toAddress
                id fee) = Throw (convertWalletError e)).
Proof.
  intros Hch Hhex Hid Hfee Hpre. split.
  - intros h hex Hs Hh. unfold nftLock. rewrite outcome_tryConvertT. runT.
    rewrite Hch. simpl. rewrite Hhex, Hid. simpl. rewrite Hfee. simpl.
    rewrite Hs, awaitConfirmLater_hash by done. simpl. by rewrite Hh.
  - intros e Hs. unfold nftLock. rewrite outcome_tryConvertT. runT.
    rewrite Hch. simpl. rewrite Hhex, Hid. simpl. rewrite Hfee. simpl.
    by rewrite Hs, awaitConfirmLater_error.
Qed.

End TransactionTheorems.

(** ** The further properties at the sample surroundings *)

Lemma provider_failures_are_classified_witness :
  getBalance (H := Sample.imports) Fixture.failingEnv 6 "0xA1" nativeTokenHash
    = ([CallGetBalance "0xA1"],
       Throw (WalletErr "Returned error: header not found" UNKNOWN_ERROR
                (Some (RawErr "Returned error: header not found")))).
Proof.
  apply (proj1 (proj2 (provider_failures_are_classified (H := Sample.imports)
                         Fixture.failingEnv Fixture.failingClient
                         "Returned error: header not found" eq_refl))
           6%Z "0xA1" (Some Sample.bnb)); reflexivity.
Defined.

Lemma lock_returns_standard_hash_witness :
  completion (lock (H := Sample.imports) Sample.env 6 "0xA1" nativeTokenHash 2 "0xB2"
                "1.5" "0.01") = Return "abc".
Proof.
  apply (lock_returns_standard_hash (H := Sample.imports) Sample.env 6 "0xA1"
           nativeTokenHash 2 "0xB2" "1.5" "0.01" Sample.client Sample.bsc Sample.bnb "B2"
           "1500000000000000000" "10000000000000000")
    with (pre := []) (h := "0xabc") (post := [SigConfirmation 0 {| status := true |}]);
    first [reflexivity | constructor].
Defined.

Lemma lock_rejects_classified_witness :
  completion (lock (H := Sample.imports) Fixture.decliningEnv 6 "0xA1" nativeTokenHash 2
                "0xB2" "1.5" "0.01")
    = Throw (WalletErr "Rejected by user" USER_REJECTED (Some (RawErr "Rejected by user"))).
Proof.
  apply (proj2 (lock_rejects_classified (H := Sample.imports) Fixture.decliningEnv 6 "0xA1"
                  nativeTokenHash 2 "0xB2" "1.5" "0.01" Fixture.decliningClient Sample.bsc
                  Sample.bnb "B2" "1500000000000000000" "10000000000000000"
                  eq_refl eq_refl eq_refl eq_refl eq_refl eq_refl
                  [] [] "Rejected by user" (Forall_nil_2 _) eq_refl)).
  apply includes_spec. reflexivity.
Defined.

Lemma lock_hangs_without_hash_witness :
  completion (lock (H := Sample.imports) Fixture.silentEnv 6 "0xA1" nativeTokenHash 2
                "0xB2" "1.5" "0.01") = Hang.
Proof.
  apply (lock_hangs_without_hash (H := Sample.imports) Fixture.silentEnv 6 "0xA1"
           nativeTokenHash 2 "0xB2" "1.5" "0.01" Fixture.silentClient Sample.bsc
           Sample.bnb "B2" "1500000000000000000" "10000000000000000");
    first [reflexivity | constructor].
Defined.

Lemma lock_missing_entry_submits_nothing_witness :
  lock (H := Sample.imports) Sample.env 5 "0xA1" nativeTokenHash 2 "0xB2" "1.5" "0.01"
    = ([], Throw (convertWalletError (TypeError (H := Sample.imports) "lockContractHash"))) ∧
  lock (H := Sample.imports) Sample.env 6 "0xA1" "ff" 2 "0xB2" "1.5" "0.01"
    = ([], Throw (convertWalletError (TypeError (H := Sample.imports) "decimals"))).
Proof.
  split.
  - apply (proj1 (lock_missing_entry_submits_nothing (H := Sample.imports) Sample.env 5
                    "0xA1" nativeTokenHash 2 "0xB2" "1.5" "0.01" Sample.client eq_refl)
             (Some Sample.bnb)); reflexivity.
  - apply (proj2 (lock_missing_entry_submits_nothing (H := Sample.imports) Sample.env 6
                    "0xA1" "ff" 2 "0xB2" "1.5" "0.01" Sample.client eq_refl)
             Sample.bsc "B2"); reflexivity.
Defined.

Lemma lock_bad_amount_submits_nothing_witness :
  lock (H := Sample.imports) Sample.env 6 "0xA1" nativeTokenHash 2 "0xB2" "1,5" "0.01"
    = ([], Throw (convertWalletError Sample.FormatError)).
Proof.
  apply (lock_bad_amount_submits_nothing (H := Sample.imports) Sample.env 6 "0xA1"
           nativeTokenHash 2 "0xB2" "1,5" "0.01" Sample.client Sample.bsc Sample.bnb "B2");
    first [reflexivity | by left].
Defined.

Lemma getBalance_token_witness :
  getBalance (H := Sample.imports) Sample.env 6 "0xA1"
             "55d398326f99059ff775485246999027b3197955"
    = ([CallMethod eth_erc20 "55d398326f99059ff775485246999027b3197955"
          (methods_balanceOf "0xA1")], Return "1.25").
Proof.
  apply (proj2 (getBalance_token (H := Sample.imports) Sample.env 6 "0xA1"
                  "55d398326f99059ff775485246999027b3197955" ltac:(discriminate))
           Sample.client Sample.usdt "1250000" "1.25"); reflexivity.
Defined.

Lemma null_iff_native_witness :
  (Some "1.25" = None ↔ "55d398326f99059ff775485246999027b3197955" = nativeTokenHash) ∧
  ((None : option string) = None ↔ nativeTokenHash = nativeTokenHash).
Proof.
  split.
  - apply (proj1 (null_iff_native (H := Sample.imports) Sample.env 6 "0xA1"
                    "55d398326f99059ff775485246999027b3197955" "C3" (Some "1.25"))).
    reflexivity.
  - apply (proj2 (null_iff_native (H := Sample.imports) Sample.env 6 "0xA1"
                    nativeTokenHash "C3" None)).
    reflexivity.
Defined.

Lemma registry_miss_after_round_trip_witness :
  getAllowance (H := Sample.imports) Sample.env 6 "0xA1" "ff" "C3"
    = ([CallMethod eth_erc20 "ff" (methods_allowance "0xA1" "0xC3")],
       Throw (convertWalletError (TypeError (H := Sample.imports) "decimals"))).
Proof.
  apply (proj2 (registry_miss_after_round_trip (H := Sample.imports) Sample.env
                  Sample.client 6 "0xA1" "ff" "C3" "1250000" eq_refl eq_refl));
    first [reflexivity | discriminate].
Defined.

Lemma uninitialised_client_asks_nothing_witness :
  lock (H := Sample.imports) Fixture.coldEnv 6 "0xA1" nativeTokenHash 2 "0xB2" "1.5" "0.01"
    = ([], Throw (convertWalletError (TypeError (H := Sample.imports) "eth"))).
Proof.
  apply (proj2 (proj2 (proj2
           (uninitialised_client_asks_nothing (H := Sample.imports) Fixture.coldEnv eq_refl)))
           6%Z "0xA1" nativeTokenHash 2%Z "0xB2" "1.5" "0.01"
           (Some Sample.bsc) (Some Sample.bnb));
    reflexivity.
Defined.

Lemma chainChanged_maps_target_network_witness :
  chainId (publish {| installed := true; connected := false; address := None;
                      addressHex := None; chainId := None |}
                   (onChainChanged (H := Sample.imports) "0x38")) = Some 6%Z ∧
  chainId (publish {| installed := true; connected := false; address := None;
                      addressHex := None; chainId := Some 6%Z |}
                   (onChainChanged (H := Sample.imports) "0x61")) = None.
Proof.
  split.
  - apply (proj1 (chainChanged_maps_target_network (H := Sample.imports) _ "0x38")).
    reflexivity.
  - apply (proj2 (chainChanged_maps_target_network (H := Sample.imports) _ "0x61")).
    discriminate.
Defined.

Lemma accountsChanged_connected_iff_address_witness :
  connected (publish {| installed := true; connected := false; address := None;
                        addressHex := None; chainId := Some 6%Z |}
                     (onAccountsChanged (H := Sample.imports) Sample.env [Fixture.account]))
    = truthy (address
                (publish {| installed := true; connected := false; address := None;
                            addressHex := None; chainId := Some 6%Z |}
                         (onAccountsChanged (H := Sample.imports) Sample.env
                            [Fixture.account]))).
Proof.
  apply (proj2 (accountsChanged_connected_iff_address (H := Sample.imports) Sample.env
                  [Fixture.account] _)).
  discriminate.
Defined.

Lemma accountsChanged_checksum_failure_witness :
  onAccountsChanged (H := Sample.imports) Fixture.decliningEnv [Fixture.account]
    = ([], Throw (RawErr "invalid address")) ∧
  publish {| installed := true; connected := true; address := Some Fixture.account;
             addressHex := None; chainId := Some 6%Z |}
          (onAccountsChanged (H := Sample.imports) Fixture.decliningEnv [Fixture.account])
    = {| installed := true; connected := true; address := Some Fixture.account;
         addressHex := None; chainId := Some 6%Z |}.
Proof.
  apply (accountsChanged_checksum_failure (H := Sample.imports) Fixture.decliningEnv
           Fixture.decliningClient Fixture.account [] (RawErr "invalid address"));
    first [reflexivity | discriminate].
Defined.

Lemma queryState_dispatches_iff_returns_witness :
  (∃ a h n,
     page_dispatched
       (queryState (H := Sample.imports) (Some Fixture.wallet)
          (init (H := Sample.imports) (Some Fixture.wallet) Fixture.blank).1).1 =
     page_dispatched (init (H := Sample.imports) (Some Fixture.wallet) Fixture.blank).1 ++
       [{| upd_name := Binance; upd_installed := None; upd_address := Some a;
           upd_addressHex := Some h; upd_connected := Some (truthy a);
           upd_chainId := Some n |}]) ∧
  page_dispatched (queryState (H := Sample.imports) (Some Fixture.wallet) Fixture.blank).1
    = page_dispatched Fixture.blank.
Proof.
  split.
  - apply (proj1 (queryState_dispatches_iff_returns (H := Sample.imports)
                    (Some Fixture.wallet)
                    (init (H := Sample.imports) (Some Fixture.wallet) Fixture.blank).1)).
    reflexivity.
  - apply (proj2 (queryState_dispatches_iff_returns (H := Sample.imports)
                    (Some Fixture.wallet) Fixture.blank)).
    discriminate.
Defined.

Lemma init_resolves_deferred_once_witness :
  page_deferred (init (H := Sample.imports) (Some Fixture.broken) Fixture.returning).1 = 1.
Proof.
  apply (init_resolves_deferred_once (H := Sample.imports) (Some Fixture.broken)
           Fixture.returning).
  discriminate.
Defined.

Lemma init_listeners_iff_returns_witness :
  page_listeners (init (H := Sample.imports) (Some Fixture.wallet) Fixture.returning).1
    = [accountsChanged; chainChanged] ∧
  page_listeners (init (H := Sample.imports) (Some Fixture.broken) Fixture.returning).1 = [] ∧
  (init (H := Sample.imports) (Some Fixture.broken) Fixture.returning).2
    = Throw (RawErr "disconnected").
Proof.
  split; [|split].
  - apply (proj1 (proj2 (init_listeners_iff_returns (H := Sample.imports) Fixture.wallet
                           Fixture.returning))).
    reflexivity.
  - apply (proj1 (proj2 (proj2 (init_listeners_iff_returns (H := Sample.imports)
                                  Fixture.broken Fixture.returning)))).
    discriminate.
  - apply (proj2 (proj2 (proj2 (init_listeners_iff_returns (H := Sample.imports)
                                  Fixture.broken Fixture.returning)))); reflexivity.
Defined.

Lemma init_without_flag_asks_nothing_witness :
  page_requests (init (H := Sample.imports) (Some Fixture.wallet) Fixture.blank).1 = [] ∧
  (init (H := Sample.imports) (Some Fixture.wallet) Fixture.blank).2 = Return tt ∧
  page_dispatched (init (H := Sample.imports) (Some Fixture.wallet) Fixture.blank).1 =
    [{| upd_name := Binance; upd_installed := Some true; upd_address := None;
        upd_addressHex := None; upd_connected := None; upd_chainId := None |}].
Proof.
  apply (init_without_flag_asks_nothing (H := Sample.imports) (Some Fixture.wallet)
           Fixture.blank).
  discriminate.
Defined.

Lemma connect_sets_flag_iff_returns_witness :
  page_session
    (connect (H := Sample.imports) (Some Fixture.wallet)
       (init (H := Sample.imports) (Some Fixture.wallet) Fixture.blank).1).1 = Some "true" ∧
  page_session (connect (H := Sample.imports) (Some Fixture.declining) Fixture.blank).1
    = None.
Proof.
  split.
  - apply (proj1 (connect_sets_flag_iff_returns (H := Sample.imports) (Some Fixture.wallet)
                    (init (H := Sample.imports) (Some Fixture.wallet) Fixture.blank).1)).
    reflexivity.
  - apply (proj2 (connect_sets_flag_iff_returns (H := Sample.imports)
                    (Some Fixture.declining) Fixture.blank)).
    discriminate.
Defined.

Lemma connect_rejected_by_user_witness :
  (connect (H := Sample.imports) (Some Fixture.declining) Fixture.blank).2
    = Throw (WalletErr "Rejected by user" USER_REJECTED (Some (RawErr "Rejected by user"))) ∧
  page_dispatched (connect (H := Sample.imports) (Some Fixture.declining) Fixture.blank).1
    = [] ∧
  page_session (connect (H := Sample.imports) (Some Fixture.declining) Fixture.blank).1
    = None ∧
  page_requests (connect (H := Sample.imports) (Some Fixture.declining) Fixture.blank).1
    = [eth_requestAccounts].
Proof.
  apply (connect_rejected_by_user (H := Sample.imports) Fixture.declining Fixture.blank
           "Rejected by user"); [reflexivity|].
  apply includes_spec. reflexivity.
Defined.

Example connect_after_init :
  connect (H := Sample.imports) (Some Fixture.wallet)
    (init (H := Sample.imports) (Some Fixture.wallet) Fixture.blank).1 =
  ({| page_web3 := Some Sample.client;
      page_session := Some "true";
      page_dispatched :=
        [{| upd_name := Binance; upd_installed := Some true; upd_address := None;
            upd_addressHex := None; upd_connected := None; upd_chainId := None |};
         {| upd_name := Binance; upd_installed := None;
            upd_address := Some (Some Fixture.account);
            upd_addressHex := Some (Some "2f7ac9436ba4b548f9582af91ca1ef02cd2f1f03");
            upd_connected := Some true;
            upd_chainId := Some (Some 6%Z) |}];
      page_requests := [eth_requestAccounts; eth_accounts; eth_chainId];
      page_listeners := [accountsChanged; chainChanged];
      page_deferred := 1 |}, Return tt).
Proof. reflexivity. Qed.

Lemma nftLock_transaction_witness :
  ∃ ch toAddressHex tokenID feeInt,
    getChain Sample.theStore 79 = Return (Some ch) ∧
    Return (Sample.strip0x "0xB2") = Return toAddressHex ∧
    Sample.refDecimalToInteger "42" 0 = Return tokenID ∧
    Sample.refDecimalToInteger "0.01" 18 = Return feeInt ∧
    {| tx_abi := eth_nft_lock; tx_contract := nftLockContractHash Sample.bscTestnet;
       tx_method := tx_nft_lock "0x3d8f" 2 "0xB2" "42"
                      "0x0000000000000000000000000000000000000000"
                      "10000000000000000" 0;
       tx_options := {| tx_from := "0xA1"; tx_value := Some "10000000000000000" |} |}
    = {| tx_abi := eth_nft_lock; tx_contract := nftLockContractHash ch;
         tx_method := tx_nft_lock ("0x" +:+ "3d8f") 2 ("0x" +:+ toAddressHex) tokenID
                        "0x0000000000000000000000000000000000000000" feeInt 0;
         tx_options := {| tx_from := "0xA1"; tx_value := Some feeInt |} |}.
Proof.
  apply (nftLock_transaction (H := Sample.imports) (Some Fixture.txClient) Sample.theStore
           79 "0xA1" "3d8f" 2 "0xB2" "42" "0.01").
  apply list_elem_of_here.
Defined.

Lemma approve_transaction_witness :
  ∃ tb amountInt,
    getTokenBasicByChainIdAndTokenHash Sample.theStore 6
      "55d398326f99059ff775485246999027b3197955" = Return (Some tb) ∧
    Sample.refDecimalToInteger "1.5" (decimals tb) = Return amountInt ∧
    {| tx_abi := eth_erc20; tx_contract := "55d398326f99059ff775485246999027b3197955";
       tx_method := tx_approve "0xC3" "1500000";
       tx_options := {| tx_from := "0xA1"; tx_value := None |} |}
    = {| tx_abi := eth_erc20; tx_contract := "55d398326f99059ff775485246999027b3197955";
         tx_method := tx_approve ("0x" +:+ "C3") amountInt;
         tx_options := {| tx_from := "0xA1"; tx_value := None |} |}.
Proof.
  apply (approve_transaction (H := Sample.imports) (Some Fixture.txClient) Sample.theStore
           6 "0xA1" "55d398326f99059ff775485246999027b3197955" "C3" "1.5").
  apply list_elem_of_here.
Defined.

Lemma nftApprove_transaction_witness :
  ∃ tokenID,
    Sample.refDecimalToInteger "42" 0 = Return tokenID ∧
    {| tx_abi := eth_erc721; tx_contract := "0x3d8f";
       tx_method := tx_approve "0xe2bD9dD8FAF5C4C2087Ab82eC7E63F619CcAa152" "42";
       tx_options := {| tx_from := "0xA1"; tx_value := None |} |}
    = {| tx_abi := eth_erc721; tx_contract := "0x3d8f";
         tx_method := tx_approve "0xe2bD9dD8FAF5C4C2087Ab82eC7E63F619CcAa152" tokenID;
         tx_options := {| tx_from := "0xA1"; tx_value := None |} |}.
Proof.
  apply (nftApprove_transaction (H := Sample.imports) (Some Fixture.txClient) "0xA1" "0x3d8f"
           "0xe2bD9dD8FAF5C4C2087Ab82eC7E63F619CcAa152" "42").
  apply list_elem_of_here.
Defined.

Lemma approve_then_allowance_witness :
  eth_erc20 = eth_erc20 ∧
  "55d398326f99059ff775485246999027b3197955" = "55d398326f99059ff775485246999027b3197955" ∧
  "0xA1" = "0xA1" ∧
  ∃ amountInt, tx_approve "0xC3" "1500000" = tx_approve "0xC3" amountInt.
Proof.
  apply (approve_then_allowance (H := Sample.imports) Sample.env (Some Fixture.txClient) 6
           "0xA1" "55d398326f99059ff775485246999027b3197955" "C3" "1.5"
           {| tx_abi := eth_erc20; tx_contract := "55d398326f99059ff775485246999027b3197955";
              tx_method := tx_approve "0xC3" "1500000";
              tx_options := {| tx_from := "0xA1"; tx_value := None |} |}
           eth_erc20 "55d398326f99059ff775485246999027b3197955" "0xA1" "0xC3");
    apply list_elem_of_here.
Defined.

Lemma nftLock_outcome_witness :
  outcome (nftLock (H := Sample.imports) (Some Fixture.txClient) Sample.theStore 79 "0xA1"
             "3d8f" 2 "0xB2" "42" "0.01") = Return "abc" ∧
  outcome (nftLock (H := Sample.imports) (Some Fixture.txDeclining) Sample.theStore 79
             "0xA1" "3d8f" 2 "0xB2" "42" "0.01")
    = Throw (convertWalletError (RawErr "Rejected by user")).
Proof.
  split.
  - apply (proj1 (nftLock_outcome (H := Sample.imports) Fixture.txClient Sample.theStore 79
                    "0xA1" "3d8f" 2 "0xB2" "42" "0.01" Sample.bscTestnet "B2" "42"
                    "10000000000000000" [] [SigConfirmation 0 {| status := true |}]
                    eq_refl eq_refl eq_refl eq_refl (Forall_nil_2 _)) "0xabc" "abc");
      reflexivity.
  - apply (proj2 (nftLock_outcome (H := Sample.imports) Fixture.txDeclining Sample.theStore
                    79 "0xA1" "3d8f" 2 "0xB2" "42" "0.01" Sample.bscTestnet "B2" "42"
                    "10000000000000000" [] []
                    eq_refl eq_refl eq_refl eq_refl (Forall_nil_2 _))
             (RawErr "Rejected by user")).
    reflexivity.
Defined.
